(** * Unified-alerting migration (package ualert): forward migration,
      removal migration and their registration.

    The Go code talks to three collaborators: the process environment, the
    migrator (migration log, registration, logger) and an xorm session.
    Every call to a collaborator is an operation of a small free monad, so
    that a run of the code under any behaviour of the collaborators yields
    the ordered list of calls with their answers next to the result. *)

From Stdlib Require Import ZArith String List Bool Lia.
From stdpp Require Import base decidable option list strings pretty gmap.

Local Open Scope Z_scope.
#[local] Set Warnings "-clear-no-such-hyp".

(** ** Go values *)

(** Operands of a format string, kept unrendered. *)
Inductive arg :=
| AInt (n : Z)
| AStr (s : string).

(** The error values the package meets.  [Errorf] is [fmt.Errorf] with no
    [%w] verb or with a nil operand for it, [Errorfw] is [fmt.Errorf] whose
    [%w] operand is [wrapped].  [MigrationError] is the struct of the
    package.  [Foreign] stands for an error built outside this file: by
    xorm, by the migrator or by a helper of the package. *)
Inductive error :=
| Errorf (format : string) (args : list arg)
| Errorfw (format : string) (args : list arg) (wrapped : error)
| MigrationError (AlertId : Z) (Err : error)
| Foreign (msg : string).

(** What unwrapping an error value gives: the answer of its [Unwrap]
    method, or nothing when its type has none.  A value of [fmt.Errorf]
    with a [%w] operand unwraps to that operand.  The package declares
    [func (e *MigrationError) Unwrap() error { return e.Err }] with a
    pointer receiver: the method belongs to [*MigrationError] and not to
    [MigrationError].  The code builds [MigrationError] values only, never
    a pointer to one, so a [MigrationError] of this file has no [Unwrap]
    method and unwrapping stops at it; its cause is the field [Err]. *)
Definition Unwrap (e : error) : option error :=
  match e with
  | Errorfw _ _ w => Some w
  | MigrationError _ _ | Errorf _ _ | Foreign _ => None
  end.

Definition isMigrationError (e : error) : bool :=
  match e with MigrationError _ _ => true | _ => false end.

(** A Go pair [(value, err)] with [err != nil] excluding the value. *)
Inductive Res (A : Type) :=
| Ok (a : A)
| Fail (e : error).
Arguments Ok {A} a.
Arguments Fail {A} e.

(** ** Free monad over a signature of operations *)

Section Free.
Context {Op : Type} {resp : Op -> Type}.

Inductive Prog (R : Type) : Type :=
| Ret (r : R)
| Vis (o : Op) (k : resp o -> Prog R).
Arguments Ret {R} r.
Arguments Vis {R} o k.

Fixpoint bind {A B} (p : Prog A) (f : A -> Prog B) : Prog B :=
  match p with
  | Ret a => f a
  | Vis o k => Vis o (fun x => bind (k x) f)
  end.

Definition call (o : Op) : Prog (resp o) := Vis o Ret.

(** Binding a fallible step: the Go idiom
    [x, err := step(); if err != nil { return wrap(err) }]. *)
Definition try {A B} (p : Prog (Res A)) (wrap : error -> error)
    (f : A -> Prog (Res B)) : Prog (Res B) :=
  bind p (fun r => match r with
                   | Ok a => f a
                   | Fail e => Ret (Fail (wrap e))
                   end).

(** [for _, x := range xs { if err := body(x); err != nil { return err } }] *)
Fixpoint forRange {A} (xs : list A) (body : A -> Prog (Res unit))
    : Prog (Res unit) :=
  match xs with
  | [] => Ret (Ok tt)
  | x :: rest =>
      bind (body x) (fun r => match r with
                              | Ok _ => forRange rest body
                              | Fail e => Ret (Fail e)
                              end)
  end.

(** Running a program against collaborators with state [St]: the handler
    answers each operation, [ev] records the call with its answer. *)
Section Run.
Context {St Event : Type}.
Variable ev : forall o : Op, resp o -> Event.
Variable h : forall o : Op, St -> resp o * St.

Fixpoint run {R} (p : Prog R) (s : St) : R * St * list Event :=
  match p with
  | Ret r => (r, s, [])
  | Vis o k =>
      let '(x, s1) := h o s in
      let '(r, s2, t) := run (k x) s1 in
      (r, s2, ev o x :: t)
  end.

Definition result {R} (p : Prog R) (s : St) : R := (run p s).1.1.
Definition final {R} (p : Prog R) (s : St) : St := (run p s).1.2.
Definition trace {R} (p : Prog R) (s : St) : list Event := (run p s).2.
End Run.
End Free.

Arguments Prog : clear implicits.
Arguments Ret {Op resp R} r.
Arguments Vis {Op resp R} o k.

Declare Scope prog_scope.
Delimit Scope prog_scope with prog.
Notation "x <- p ;; q" := (bind p (fun x => q))
  (at level 100, p at next level, right associativity) : prog_scope.
Notation "p ;;; q" := (bind p (fun _ => q))
  (at level 100, right associativity) : prog_scope.

(** ** Registration: [AddMigration] *)

Definition GENERAL_FOLDER : string := "General Alerting".
(** [DASHBOARD_FOLDER = "Migrated %s"], applied to its one string operand. *)
Definition DASHBOARD_FOLDER (s : string) : string := "Migrated " +:+ s.
Definition FOLDER_CREATED_BY : Z := -8.
Definition migTitle : string := "move dashboard alerts to unified alerting".
Definition rmMigTitle : string := "remove unified alerting data".

(** The two code migrations, [&migration{}] and [&rmMigration{}]. *)
Inductive CodeMigration := migration | rmMigration.

(** A row of the migration log; only the keys of the log are looked at. *)
Record MigrationLog := { Success : bool; Timestamp : Z }.

Inductive MgOp :=
| Getenv (key : string)
| GetMigrationLog
| IsNgAlertEnabled
| LoggerCrit (msg : string) (err : error)
| LoggerError (msg : string) (err : error)
| ClearMigrationEntry (id : string)
| MgAddMigration (id : string) (m : CodeMigration).

Definition mgResp (o : MgOp) : Type :=
  match o with
  | Getenv _ => string
  | GetMigrationLog => Res (gmap string MigrationLog)
  | IsNgAlertEnabled => bool
  | LoggerCrit _ _ | LoggerError _ _ | MgAddMigration _ _ => unit
  | ClearMigrationEntry _ => option error
  end.

Inductive MgEvent :=
| EvGetenv (key value : string)
| EvGetMigrationLog (r : Res (gmap string MigrationLog))
| EvIsNgAlertEnabled (b : bool)
| EvLoggerCrit (msg : string) (err : error)
| EvLoggerError (msg : string) (err : error)
| EvClearMigrationEntry (id : string) (err : option error)
| EvAddMigration (id : string) (m : CodeMigration).

Definition mgEv (o : MgOp) : mgResp o -> MgEvent :=
  match o with
  | Getenv k => EvGetenv k
  | GetMigrationLog => EvGetMigrationLog
  | IsNgAlertEnabled => EvIsNgAlertEnabled
  | LoggerCrit m e => fun _ => EvLoggerCrit m e
  | LoggerError m e => fun _ => EvLoggerError m e
  | ClearMigrationEntry id => EvClearMigrationEntry id
  | MgAddMigration id m => fun _ => EvAddMigration id m
  end.

(** How [AddMigration] ends: it returns, or [os.Exit] stops the process. *)
Inductive outcome := Returned | Exited (code : Z).

Definition mg (o : MgOp) : Prog MgOp mgResp (mgResp o) := call o.

Definition AddMigration : Prog MgOp mgResp outcome :=
  (env <- mg (Getenv "UALERT_MIG");;
   if String.eqb env "iDidBackup" then
     logs <- mg GetMigrationLog;;
     match logs with
     | Fail err =>
         mg (LoggerCrit "alert migration failure: could not get migration log" err);;;
         Ret (Exited 1)
     | Ok logs =>
         let migrationRun := bool_decide (is_Some (logs !! migTitle)) in
         ngEnabled <- mg IsNgAlertEnabled;;
         if ngEnabled && negb migrationRun then
           err <- mg (ClearMigrationEntry rmMigTitle);;
           match err with
           | Some e =>
               mg (LoggerError "alert migration error: could not clear alert migration for removing data" e)
           | None => Ret tt
           end;;;
           mg (MgAddMigration migTitle migration);;;
           Ret Returned
         else if negb ngEnabled && migrationRun then
           err <- mg (ClearMigrationEntry migTitle);;
           match err with
           | Some e =>
               mg (LoggerError "alert migration error: could not clear alert migration" e)
           | None => Ret tt
           end;;;
           mg (MgAddMigration rmMigTitle rmMigration);;;
           Ret Returned
         else Ret Returned
     end
   else Ret Returned)%prog.

(** The migrations a run registered, in order. *)
Definition registered (t : list MgEvent) : list (string * CodeMigration) :=
  omap (fun e => match e with
                 | EvAddMigration id m => Some (id, m)
                 | _ => None
                 end) t.

(** Whether a run read the migration log. *)
Definition readsLog (t : list MgEvent) : bool :=
  existsb (fun e => match e with EvGetMigrationLog _ => true | _ => false end) t.

(** ** Rows and structs of the migration

    The struct declarations are not part of the sources at hand.  The
    fields the code reads and writes keep their Go names; the others follow
    the data model of the spec. *)

(** Modelled from the spec: the declaration of the parsed settings of a
    legacy alert is missing; each condition refers to a datasource by id. *)
Record dashAlertCondition := { DatasourceId : Z; Query : string }.
Definition dashAlertSettings := list dashAlertCondition.

(** Modelled from the spec: the declaration of the translated condition is
    missing; each query refers to a datasource by uid. *)
Record condQuery := { DatasourceUid : string; Model : string }.
Definition condition := list condQuery.

(** Modelled from the spec: the declaration of [dashAlert] is missing.
    [ParsedSettings] is the value behind the pointer, taken as present. *)
Module dashAlert.
Record t := {
  Id : Z;
  OrgId : Z;
  DashboardId : Z;
  PanelId : Z;
  Name : string;
  DashboardUID : string;
  ParsedSettings : dashAlertSettings
}.
(** [da.DashboardUID = uid] *)
Definition setDashboardUID (uid : string) (da : t) : t :=
  {| Id := Id da; OrgId := OrgId da; DashboardId := DashboardId da;
     PanelId := PanelId da; Name := Name da; DashboardUID := uid;
     ParsedSettings := ParsedSettings da |}.
End dashAlert.

(** Modelled from the spec: the declaration of [dashboard] is missing; a
    row of the dashboard table, a folder when [IsFolder] is set. *)
Module dashboard.
Record t := {
  Id : Z;
  OrgId : Z;
  Uid : string;
  Title : string;
  FolderId : Z;
  HasAcl : bool;
  IsFolder : bool;
  CreatedBy : Z
}.
(** The zero value [dashboard{}]. *)
Definition zero : t :=
  {| Id := 0; OrgId := 0; Uid := ""; Title := ""; FolderId := 0;
     HasAcl := false; IsFolder := false; CreatedBy := 0 |}.
End dashboard.

(** Modelled from the spec: the declaration of [dashboardACL] is missing;
    a grant of a permission level to a role, user or team. *)
Module dashboardACL.
Record t := {
  DashboardId : Z;
  OrgId : Z;
  Principal : string;
  Permission : Z
}.
End dashboardACL.

(** Modelled from the spec: the declaration of [alertRule] is missing. *)
Module alertRule.
Record t := {
  Uid : string;
  OrgId : Z;
  NamespaceUID : string;
  Title : string;
  RuleGroup : string;
  Condition : condition
}.
(** [rule.Title += fmt.Sprintf(" %v", rule.Uid)] followed by
    [rule.RuleGroup += fmt.Sprintf(" %v", rule.Uid)]. *)
Definition suffixed (rule : t) : t :=
  {| Uid := Uid rule; OrgId := OrgId rule; NamespaceUID := NamespaceUID rule;
     Title := Title rule +:+ " " +:+ Uid rule;
     RuleGroup := RuleGroup rule +:+ " " +:+ Uid rule;
     Condition := Condition rule |}.
End alertRule.

(** Modelled from the spec: the declaration of [alertRuleVersion] is
    missing; the snapshot of a rule. *)
Module alertRuleVersion.
Record t := {
  RuleUID : string;
  RuleOrgId : Z;
  RuleNamespaceUID : string;
  Title : string;
  RuleGroup : string;
  Condition : condition
}.
End alertRuleVersion.

(** The functions of the package that [Exec] calls without a session:
    [transConditions], [getMigrationString] and the method [makeVersion] of
    a rule.  Their bodies are not part of the sources at hand; [Exec] is modelled
    for any such functions. *)
Class Helpers := {
  transConditions : dashAlertSettings -> Z -> gmap (Z * Z) string -> Res condition;
  getMigrationString : dashAlert.t -> string;
  makeVersion : alertRule.t -> alertRuleVersion.t
}.

(** ** The session and the methods of [migration] that use it *)

Inductive SessOp :=
| slurpDashAlerts
| slurpDSIDs
| slurpDashUIDs
(** [m.sess.Where(query, args...).Get(&dashboard{})] *)
| SessGet (query : string) (args : list arg)
| createFolder (orgId : Z) (title : string)
| getACL (orgId dashboardId : Z)
| setACL (orgId folderId : Z) (permissions : list dashboardACL.t)
| getOrCreateGeneralFolder (orgId : Z)
| makeAlertRule (cond : condition) (da : dashAlert.t) (folderUID : string)
(** [m.sess.Insert(rule)] and [m.sess.Insert(rule.makeVersion())] *)
| SessInsertRule (rule : alertRule.t)
| SessInsertVersion (v : alertRuleVersion.t)
(** [sess.Exec(sql, args...)] *)
| SessExec (sql : string) (args : list Z).

(** [Get] answers [(exists, err)] and fills the struct when the row exists:
    [Ok (Some row)], [Ok None] or [Fail err]. *)
Definition sessResp (o : SessOp) : Type :=
  match o with
  | slurpDashAlerts => Res (list dashAlert.t)
  | slurpDSIDs | slurpDashUIDs => Res (gmap (Z * Z) string)
  | SessGet _ _ => Res (option dashboard.t)
  | createFolder _ _ | getOrCreateGeneralFolder _ => Res dashboard.t
  | getACL _ _ => Res (list dashboardACL.t)
  | makeAlertRule _ _ _ => Res alertRule.t
  | setACL _ _ _ | SessInsertRule _ | SessInsertVersion _ | SessExec _ _ =>
      option error
  end.

Inductive SessEvent :=
| EvSlurpDashAlerts (r : Res (list dashAlert.t))
| EvSlurpDSIDs (r : Res (gmap (Z * Z) string))
| EvSlurpDashUIDs (r : Res (gmap (Z * Z) string))
| EvGet (query : string) (args : list arg) (r : Res (option dashboard.t))
| EvCreateFolder (orgId : Z) (title : string) (r : Res dashboard.t)
| EvGetACL (orgId dashboardId : Z) (r : Res (list dashboardACL.t))
| EvSetACL (orgId folderId : Z) (permissions : list dashboardACL.t)
    (err : option error)
| EvGetOrCreateGeneralFolder (orgId : Z) (r : Res dashboard.t)
| EvMakeAlertRule (cond : condition) (da : dashAlert.t) (folderUID : string)
    (r : Res alertRule.t)
| EvInsertRule (rule : alertRule.t) (err : option error)
| EvInsertVersion (v : alertRuleVersion.t) (err : option error)
| EvExec (sql : string) (args : list Z) (err : option error).

Definition sessEv (o : SessOp) : sessResp o -> SessEvent :=
  match o with
  | slurpDashAlerts => EvSlurpDashAlerts
  | slurpDSIDs => EvSlurpDSIDs
  | slurpDashUIDs => EvSlurpDashUIDs
  | SessGet q a => EvGet q a
  | createFolder o t => EvCreateFolder o t
  | getACL o d => EvGetACL o d
  | setACL o f p => EvSetACL o f p
  | getOrCreateGeneralFolder o => EvGetOrCreateGeneralFolder o
  | makeAlertRule c da f => EvMakeAlertRule c da f
  | SessInsertRule r => EvInsertRule r
  | SessInsertVersion v => EvInsertVersion v
  | SessExec q a => EvExec q a
  end.

Definition sess (o : SessOp) : Prog SessOp sessResp (sessResp o) := call o.

Abbreviation SessProg := (Prog SessOp sessResp).

(** ** The forward migration: [(m *migration) Exec] *)

Section Forward.
Context {helpers : Helpers}.

(** "get dashboard": the row of the alert's dashboard. *)
Definition getDashboard (da : dashAlert.t) : SessProg (Res dashboard.t) :=
  (r <- sess (SessGet "org_id=? AND uid=?"
                [AInt (dashAlert.OrgId da); AStr (dashAlert.DashboardUID da)]);;
   match r with
   | Fail err =>
       Ret (Fail (MigrationError (dashAlert.Id da)
         (Errorfw "failed to get dashboard %s under organisation %d: %w"
            [AStr (dashAlert.DashboardUID da); AInt (dashAlert.OrgId da)] err)))
   | Ok None =>
       Ret (Fail (MigrationError (dashAlert.Id da)
         (Errorf "dashboard with UID %v under organisation %d not found: %w"
            [AStr (dashAlert.DashboardUID da); AInt (dashAlert.OrgId da)])))
   | Ok (Some dash) => Ret (Ok dash)
   end)%prog.

(** "get folder if exists": [folder] stays [dashboard{}] unless the
    dashboard has a parent. *)
Definition getFolder (da : dashAlert.t) (dash : dashboard.t)
    : SessProg (Res dashboard.t) :=
  (if 0 <? dashboard.FolderId dash then
     r <- sess (SessGet "id=?" [AInt (dashboard.FolderId dash)]);;
     match r with
     | Fail err =>
         Ret (Fail (MigrationError (dashAlert.Id da)
           (Errorfw "failed to get folder %d: %w"
              [AInt (dashboard.FolderId dash)] err)))
     | Ok None =>
         Ret (Fail (MigrationError (dashAlert.Id da)
           (Errorf "folder with id %v not found"
              [AInt (dashboard.FolderId dash)])))
     | Ok (Some folder) =>
         if dashboard.IsFolder folder then Ret (Ok folder)
         else
           Ret (Fail (MigrationError (dashAlert.Id da)
             (Errorf "id %v is a dashboard not a folder"
                [AInt (dashboard.FolderId dash)])))
     end
   else Ret (Ok dashboard.zero))%prog.

(** The [switch] on [dash.HasAcl] and [dash.FolderId > 0]. *)
Definition resolveFolder (da : dashAlert.t) (dash folder : dashboard.t)
    : SessProg (Res dashboard.t) :=
  (if dashboard.HasAcl dash then
     ptr <- sess (createFolder (dashboard.OrgId dash)
                    (DASHBOARD_FOLDER (getMigrationString da)));;
     match ptr with
     | Fail err =>
         Ret (Fail (MigrationError (dashAlert.Id da)
           (Errorfw "failed to create folder: %w" [] err)))
     | Ok folder =>
         permissions <- sess (getACL (dashboard.OrgId dash) (dashboard.Id dash));;
         match permissions with
         | Fail err =>
             Ret (Fail (MigrationError (dashAlert.Id da)
               (Errorfw "failed to get dashboard %d under organisation %d permissions: %w"
                  [AInt (dashboard.Id dash); AInt (dashboard.OrgId dash)] err)))
         | Ok permissions =>
             err <- sess (setACL (dashboard.OrgId folder) (dashboard.Id folder)
                            permissions);;
             match err with
             | Some err =>
                 Ret (Fail (MigrationError (dashAlert.Id da)
                   (Errorfw "failed to set folder %d under organisation %d permissions: %w"
                      [AInt (dashboard.Id folder); AInt (dashboard.OrgId folder)] err)))
             | None => Ret (Ok folder)
             end
         end
     end
   else if 0 <? dashboard.FolderId dash then Ret (Ok folder)
   else
     ptr <- sess (getOrCreateGeneralFolder (dashboard.OrgId dash));;
     match ptr with
     | Fail err =>
         Ret (Fail (MigrationError (dashAlert.Id da)
           (Errorfw "failed to get or create general folder under organisation %d: %w"
              [AInt (dashboard.OrgId dash)] err)))
     | Ok folder => Ret (Ok folder)
     end)%prog.

(** "create entry in alert_rule_version" *)
Definition insertVersion (rule : alertRule.t) : SessProg (Res unit) :=
  (err <- sess (SessInsertVersion (makeVersion rule));;
   match err with
   | Some err => Ret (Fail err)
   | None => Ret (Ok tt)
   end)%prog.

(** From the test on [folder.Uid] to the end of the loop body. *)
Definition persist (newCond : condition) (da : dashAlert.t)
    (folder : dashboard.t) : SessProg (Res unit) :=
  (if String.eqb (dashboard.Uid folder) "" then
     Ret (Fail (MigrationError (dashAlert.Id da)
       (Errorf "empty folder identifier" [])))
   else
     rule <- sess (makeAlertRule newCond da (dashboard.Uid folder));;
     match rule with
     | Fail err => Ret (Fail err)
     | Ok rule =>
         err <- sess (SessInsertRule rule);;
         match err with
         | Some _ =>
             let rule := alertRule.suffixed rule in
             err <- sess (SessInsertRule rule);;
             match err with
             | Some err => Ret (Fail err)
             | None => insertVersion rule
             end
         | None => insertVersion rule
         end
     end)%prog.

(** The body of [for _, da := range dashAlerts]. *)
Definition migrateAlert (dsIDMap dashIDMap : gmap (Z * Z) string)
    (da : dashAlert.t) : SessProg (Res unit) :=
  match transConditions (dashAlert.ParsedSettings da) (dashAlert.OrgId da) dsIDMap with
  | Fail err => Ret (Fail err)
  | Ok newCond =>
      let da :=
        dashAlert.setDashboardUID
          (default "" (dashIDMap !! (dashAlert.OrgId da, dashAlert.DashboardId da)))
          da in
      try (getDashboard da) id (fun dash =>
      try (getFolder da dash) id (fun folder =>
      try (resolveFolder da dash folder) id (fun folder =>
      persist newCond da folder)))
  end.

Definition Exec : SessProg (Res unit) :=
  try (sess slurpDashAlerts) id (fun dashAlerts =>
  try (sess slurpDSIDs) id (fun dsIDMap =>
  try (sess slurpDashUIDs) id (fun dashIDMap =>
  forRange dashAlerts (migrateAlert dsIDMap dashIDMap)))).
End Forward.

(** ** The removal migration: [(m *rmMigration) Exec] *)

(** [_, err := sess.Exec(sql, args...); if err != nil { return err }] *)
Definition execOrReturn (sql : string) (args : list Z)
    (rest : SessProg (Res unit)) : SessProg (Res unit) :=
  (err <- sess (SessExec sql args);;
   match err with
   | Some err => Ret (Fail err)
   | None => rest
   end)%prog.

Definition rmExec : SessProg (Res unit) :=
  execOrReturn "delete from alert_rule" [] (
  execOrReturn "delete from alert_rule_version" [] (
  execOrReturn "delete from dashboard_acl where dashboard_id IN (select id from dashboard where created_by = ?)"
    [FOLDER_CREATED_BY] (
  execOrReturn "delete from dashboard where created_by = ?" [FOLDER_CREATED_BY] (
  execOrReturn "delete from alert_configuration" [] (
  execOrReturn "delete from alert_instance" [] (
  Ret (Ok tt))))))).

(** ** An in-memory relational store

    The collaborators made concrete, to run the migrations on actual rows:
    the tables the SQL of the package names, the statements of the session
    read as SQL, and the helpers of the package that are not part of the
    sources at hand. *)

Module Store.
Record DB := {
  alert : list dashAlert.t;
  data_source : gmap (Z * Z) string;
  dashboard : list dashboard.t;
  dashboard_acl : list dashboardACL.t;
  alert_rule : list alertRule.t;
  alert_rule_version : list alertRuleVersion.t;
  alert_configuration : list Z;
  alert_instance : list Z;
  (** next auto-increment id, also the seed of generated uids *)
  next_id : Z;
  (** what the store does to the coming statements: [Some e] makes the
      statement fail with [e] and change nothing *)
  faults : list (option error)
}.

Definition with_dashboard (v : list dashboard.t) (db : DB) : DB :=
  {| alert := alert db; data_source := data_source db; dashboard := v;
     dashboard_acl := dashboard_acl db; alert_rule := alert_rule db;
     alert_rule_version := alert_rule_version db;
     alert_configuration := alert_configuration db;
     alert_instance := alert_instance db; next_id := next_id db;
     faults := faults db |}.
Definition with_dashboard_acl (v : list dashboardACL.t) (db : DB) : DB :=
  {| alert := alert db; data_source := data_source db; dashboard := dashboard db;
     dashboard_acl := v; alert_rule := alert_rule db;
     alert_rule_version := alert_rule_version db;
     alert_configuration := alert_configuration db;
     alert_instance := alert_instance db; next_id := next_id db;
     faults := faults db |}.
Definition with_alert_rule (v : list alertRule.t) (db : DB) : DB :=
  {| alert := alert db; data_source := data_source db; dashboard := dashboard db;
     dashboard_acl := dashboard_acl db; alert_rule := v;
     alert_rule_version := alert_rule_version db;
     alert_configuration := alert_configuration db;
     alert_instance := alert_instance db; next_id := next_id db;
     faults := faults db |}.
Definition with_alert_rule_version (v : list alertRuleVersion.t) (db : DB) : DB :=
  {| alert := alert db; data_source := data_source db; dashboard := dashboard db;
     dashboard_acl := dashboard_acl db; alert_rule := alert_rule db;
     alert_rule_version := v;
     alert_configuration := alert_configuration db;
     alert_instance := alert_instance db; next_id := next_id db;
     faults := faults db |}.
Definition with_alert_configuration (v : list Z) (db : DB) : DB :=
  {| alert := alert db; data_source := data_source db; dashboard := dashboard db;
     dashboard_acl := dashboard_acl db; alert_rule := alert_rule db;
     alert_rule_version := alert_rule_version db;
     alert_configuration := v;
     alert_instance := alert_instance db; next_id := next_id db;
     faults := faults db |}.
Definition with_alert_instance (v : list Z) (db : DB) : DB :=
  {| alert := alert db; data_source := data_source db; dashboard := dashboard db;
     dashboard_acl := dashboard_acl db; alert_rule := alert_rule db;
     alert_rule_version := alert_rule_version db;
     alert_configuration := alert_configuration db;
     alert_instance := v; next_id := next_id db;
     faults := faults db |}.
Definition with_next_id (v : Z) (db : DB) : DB :=
  {| alert := alert db; data_source := data_source db; dashboard := dashboard db;
     dashboard_acl := dashboard_acl db; alert_rule := alert_rule db;
     alert_rule_version := alert_rule_version db;
     alert_configuration := alert_configuration db;
     alert_instance := alert_instance db; next_id := v;
     faults := faults db |}.
Definition with_faults (v : list (option error)) (db : DB) : DB :=
  {| alert := alert db; data_source := data_source db; dashboard := dashboard db;
     dashboard_acl := dashboard_acl db; alert_rule := alert_rule db;
     alert_rule_version := alert_rule_version db;
     alert_configuration := alert_configuration db;
     alert_instance := alert_instance db; next_id := next_id db;
     faults := v |}.

(** *** Statements of the session, read as SQL *)

(** [WHERE created_by = ?] on a dashboard row. *)
Definition createdBy (marker : Z) (d : dashboard.t) : bool :=
  dashboard.CreatedBy d =? marker.

(** [dashboard_id IN (select id from dashboard where created_by = ?)] *)
Definition aclOfCreatedBy (marker : Z) (dashboards : list dashboard.t)
    (a : dashboardACL.t) : bool :=
  existsb (fun d => createdBy marker d && (dashboard.Id d =? dashboardACL.DashboardId a))
    dashboards.

Definition keep {A} (deleted : A -> bool) (rows : list A) : list A :=
  List.filter (fun r => negb (deleted r)) rows.

(** [sess.Exec]: the six statements of the removal migration; any other
    text is refused by the store. *)
Definition exec (sql : string) (args : list Z) (db : DB) : option error * DB :=
  if String.eqb sql "delete from alert_rule" then
    (None, with_alert_rule [] db)
  else if String.eqb sql "delete from alert_rule_version" then
    (None, with_alert_rule_version [] db)
  else if String.eqb sql "delete from dashboard_acl where dashboard_id IN (select id from dashboard where created_by = ?)" then
    match args with
    | [marker] =>
        (None, with_dashboard_acl
                 (keep (aclOfCreatedBy marker (dashboard db)) (dashboard_acl db)) db)
    | _ => (Some (Foreign "wrong number of arguments"), db)
    end
  else if String.eqb sql "delete from dashboard where created_by = ?" then
    match args with
    | [marker] =>
        (None, with_dashboard (keep (createdBy marker) (dashboard db)) db)
    | _ => (Some (Foreign "wrong number of arguments"), db)
    end
  else if String.eqb sql "delete from alert_configuration" then
    (None, with_alert_configuration [] db)
  else if String.eqb sql "delete from alert_instance" then
    (None, with_alert_instance [] db)
  else (Some (Foreign "syntax error"), db).

(** [sess.Where(query, args...).Get(&dashboard{})]: the first matching
    row, for the two conditions the forward migration uses. *)
Definition get (query : string) (args : list arg) (db : DB)
    : Res (option dashboard.t) :=
  match args with
  | [AInt orgId; AStr uid] =>
      if String.eqb query "org_id=? AND uid=?" then
        Ok (List.find (fun d => (dashboard.OrgId d =? orgId)
                                && String.eqb (dashboard.Uid d) uid) (dashboard db))
      else Fail (Foreign "syntax error")
  | [AInt id] =>
      if String.eqb query "id=?" then
        Ok (List.find (fun d => dashboard.Id d =? id) (dashboard db))
      else Fail (Foreign "syntax error")
  | _ => Fail (Foreign "syntax error")
  end.

(** The unique index of [alert_rule]: no two rules of an organisation
    and folder share a title, no two rules of an organisation share a
    uid. *)
Definition collides (r r' : alertRule.t) : bool :=
  (alertRule.OrgId r =? alertRule.OrgId r')
  && ((String.eqb (alertRule.NamespaceUID r) (alertRule.NamespaceUID r')
       && String.eqb (alertRule.Title r) (alertRule.Title r'))
      || String.eqb (alertRule.Uid r) (alertRule.Uid r')).

Definition UniqueConstraintError : error :=
  Foreign "UNIQUE constraint failed: alert_rule".

Definition insert_rule (r : alertRule.t) (db : DB) : option error * DB :=
  if existsb (collides r) (alert_rule db) then (Some UniqueConstraintError, db)
  else (None, with_alert_rule (alert_rule db ++ [r]) db).

Definition insert_version (v : alertRuleVersion.t) (db : DB) : option error * DB :=
  (None, with_alert_rule_version (alert_rule_version db ++ [v]) db).

(** *** The helpers of the package *)

(** Modelled from the spec: [slurpDashAlerts], [slurpDSIDs] and
    [slurpDashUIDs] are missing; they are the three bulk reads run once
    at the start: the legacy alerts, the (org, datasource id) to uid map
    and the (org, dashboard id) to uid map. *)
Definition slurpDashAlerts (db : DB) : Res (list dashAlert.t) := Ok (alert db).
Definition slurpDSIDs (db : DB) : Res (gmap (Z * Z) string) := Ok (data_source db).
Definition slurpDashUIDs (db : DB) : Res (gmap (Z * Z) string) :=
  Ok (list_to_map
        (List.map (fun d => ((dashboard.OrgId d, dashboard.Id d), dashboard.Uid d))
           (dashboard db))).

(** Modelled from the spec: [createFolder] is missing; it adds a folder
    row of the organisation with the given title, a fresh id and uid, and
    the reserved creator marker, and returns it. *)
Definition createFolder (orgId : Z) (title : string) (db : DB)
    : Res dashboard.t * DB :=
  let folder :=
    {| dashboard.Id := next_id db; dashboard.OrgId := orgId;
       dashboard.Uid := "folder-" +:+ pretty (next_id db);
       dashboard.Title := title; dashboard.FolderId := 0;
       dashboard.HasAcl := false; dashboard.IsFolder := true;
       dashboard.CreatedBy := FOLDER_CREATED_BY |} in
  (Ok folder,
   with_next_id (next_id db + 1) (with_dashboard (dashboard db ++ [folder]) db)).

(** Modelled from the spec: [getACL] is missing; it reads the effective
    ACL of a dashboard: its own entries and those of its parent folder. *)
Definition getACL (orgId dashboardId : Z) (db : DB) : Res (list dashboardACL.t) :=
  let parent :=
    match List.find (fun d => dashboard.Id d =? dashboardId) (dashboard db) with
    | Some d => dashboard.FolderId d
    | None => 0
    end in
  Ok (List.filter
        (fun a => (dashboardACL.OrgId a =? orgId)
                  && ((dashboardACL.DashboardId a =? dashboardId)
                      || ((0 <? parent) && (dashboardACL.DashboardId a =? parent))))
        (dashboard_acl db)).

(** Modelled from the spec: [setACL] is missing; it grants the folder the
    given entries, principal and permission level unchanged. *)
Definition setACL (orgId folderId : Z) (permissions : list dashboardACL.t)
    (db : DB) : option error * DB :=
  (None,
   with_dashboard_acl
     (dashboard_acl db ++
      List.map (fun a => {| dashboardACL.DashboardId := folderId;
                            dashboardACL.OrgId := orgId;
                            dashboardACL.Principal := dashboardACL.Principal a;
                            dashboardACL.Permission := dashboardACL.Permission a |})
        permissions)
     db).

Definition isGeneralFolder (orgId : Z) (d : dashboard.t) : bool :=
  (dashboard.OrgId d =? orgId) && String.eqb (dashboard.Title d) GENERAL_FOLDER
  && dashboard.IsFolder d.

(** Modelled from the spec: [getOrCreateGeneralFolder] is missing; it
    returns the "General Alerting" folder of the organisation, creating
    it when the organisation has none. *)
Definition getOrCreateGeneralFolder (orgId : Z) (db : DB) : Res dashboard.t * DB :=
  match List.find (isGeneralFolder orgId) (dashboard db) with
  | Some folder => (Ok folder, db)
  | None => createFolder orgId GENERAL_FOLDER db
  end.

(** Modelled from the spec: [makeAlertRule] is missing; title and rule
    group are the name of the legacy alert, the uid is generated, the
    rule lives in the given folder. *)
Definition makeAlertRule (cond : condition) (da : dashAlert.t) (folderUID : string)
    (db : DB) : Res alertRule.t * DB :=
  (Ok {| alertRule.Uid := "rule-" +:+ pretty (next_id db);
         alertRule.OrgId := dashAlert.OrgId da;
         alertRule.NamespaceUID := folderUID;
         alertRule.Title := dashAlert.Name da;
         alertRule.RuleGroup := dashAlert.Name da;
         alertRule.Condition := cond |},
   with_next_id (next_id db + 1) db).

Definition UnresolvedDatasourceError (datasourceId : Z) : error :=
  Errorf "UnresolvedDatasourceError: datasource %d" [AInt datasourceId].

(** Modelled from the spec: [transConditions] is missing; it maps the
    datasource id of every condition, in order, through the datasource
    map and fails on an id without uid. *)
Fixpoint transConditions (set : dashAlertSettings) (orgId : Z)
    (dsIDMap : gmap (Z * Z) string) : Res condition :=
  match set with
  | [] => Ok []
  | c :: rest =>
      match dsIDMap !! (orgId, DatasourceId c) with
      | None => Fail (UnresolvedDatasourceError (DatasourceId c))
      | Some uid =>
          match transConditions rest orgId dsIDMap with
          | Fail e => Fail e
          | Ok conds => Ok ({| DatasourceUid := uid; Model := Query c |} :: conds)
          end
      end
  end.

(** Modelled from the spec: [getMigrationString] is missing; the title of
    a synthesized folder derives from the identity of the alert. *)
Definition getMigrationString (da : dashAlert.t) : string :=
  dashAlert.DashboardUID da +:+ "/" +:+ pretty (dashAlert.PanelId da)
    +:+ "/" +:+ pretty (dashAlert.Id da).

(** Modelled from the spec: [makeVersion] is missing; a version is the
    snapshot of the rule. *)
Definition makeVersion (rule : alertRule.t) : alertRuleVersion.t :=
  {| alertRuleVersion.RuleUID := alertRule.Uid rule;
     alertRuleVersion.RuleOrgId := alertRule.OrgId rule;
     alertRuleVersion.RuleNamespaceUID := alertRule.NamespaceUID rule;
     alertRuleVersion.Title := alertRule.Title rule;
     alertRuleVersion.RuleGroup := alertRule.RuleGroup rule;
     alertRuleVersion.Condition := alertRule.Condition rule |}.
End Store.

#[export] Instance storeHelpers : Helpers := {|
  transConditions := Store.transConditions;
  getMigrationString := Store.getMigrationString;
  makeVersion := Store.makeVersion
|}.

(** What an operation answers when the store fails it with [e]. *)
Definition failWith (o : SessOp) (e : error) : sessResp o :=
  match o with
  | slurpDashAlerts => Fail e
  | slurpDSIDs => Fail e
  | slurpDashUIDs => Fail e
  | SessGet _ _ => Fail e
  | createFolder _ _ => Fail e
  | getACL _ _ => Fail e
  | setACL _ _ _ => Some e
  | getOrCreateGeneralFolder _ => Fail e
  | makeAlertRule _ _ _ => Fail e
  | SessInsertRule _ => Some e
  | SessInsertVersion _ => Some e
  | SessExec _ _ => Some e
  end.

(** What an operation does on a store that lets it through. *)
Definition perform (o : SessOp) (db : Store.DB) : sessResp o * Store.DB :=
  match o with
  | slurpDashAlerts => (Store.slurpDashAlerts db, db)
  | slurpDSIDs => (Store.slurpDSIDs db, db)
  | slurpDashUIDs => (Store.slurpDashUIDs db, db)
  | SessGet q a => (Store.get q a db, db)
  | createFolder o t => Store.createFolder o t db
  | getACL o d => (Store.getACL o d db, db)
  | setACL o f p => Store.setACL o f p db
  | getOrCreateGeneralFolder o => Store.getOrCreateGeneralFolder o db
  | makeAlertRule c da f => Store.makeAlertRule c da f db
  | SessInsertRule r => Store.insert_rule r db
  | SessInsertVersion v => Store.insert_version v db
  | SessExec q a => Store.exec q a db
  end.

(** The handler of the in-memory store: each operation consumes the head of
    the fault schedule. *)
Definition storeHandler (o : SessOp) (db : Store.DB) : sessResp o * Store.DB :=
  match Store.faults db with
  | Some e :: rest => (failWith o e, Store.with_faults rest db)
  | None :: rest => perform o (Store.with_faults rest db)
  | [] => perform o db
  end.

(** ** An in-memory migrator and process environment *)

(** Modelled from the spec: the migrator is missing; it keeps the migration
    log (get all entries, clear an entry by name), the feature toggle, the
    list of registered migrations and a logger. *)
Module Migrator.
Record t := {
  environ : gmap string string;
  migration_log : gmap string MigrationLog;
  (** set when the migration log cannot be read *)
  log_error : option error;
  ngAlertEnabled : bool;
  migrations : list (string * CodeMigration);
  logger : list (string * error)
}.

Definition with_log (v : gmap string MigrationLog) (mg : t) : t :=
  {| environ := environ mg; migration_log := v; log_error := log_error mg;
     ngAlertEnabled := ngAlertEnabled mg; migrations := migrations mg;
     logger := logger mg |}.
Definition with_migrations (v : list (string * CodeMigration)) (mg : t) : t :=
  {| environ := environ mg; migration_log := migration_log mg;
     log_error := log_error mg; ngAlertEnabled := ngAlertEnabled mg;
     migrations := v; logger := logger mg |}.
Definition with_logger (v : list (string * error)) (mg : t) : t :=
  {| environ := environ mg; migration_log := migration_log mg;
     log_error := log_error mg; ngAlertEnabled := ngAlertEnabled mg;
     migrations := migrations mg; logger := v |}.

(** [os.Getenv]: the empty string for a variable that is not set. *)
Definition getenv (key : string) (mg : t) : string :=
  default "" (environ mg !! key).

Definition getMigrationLog (mg : t) : Res (gmap string MigrationLog) :=
  match log_error mg with
  | Some e => Fail e
  | None => Ok (migration_log mg)
  end.

Definition handler (o : MgOp) (mg : t) : mgResp o * t :=
  match o with
  | Getenv key => (getenv key mg, mg)
  | GetMigrationLog => (getMigrationLog mg, mg)
  | IsNgAlertEnabled => (ngAlertEnabled mg, mg)
  | LoggerCrit msg e => (tt, with_logger (logger mg ++ [(msg, e)]) mg)
  | LoggerError msg e => (tt, with_logger (logger mg ++ [(msg, e)]) mg)
  | ClearMigrationEntry id => (None, with_log (delete id (migration_log mg)) mg)
  | MgAddMigration id m => (tt, with_migrations (migrations mg ++ [(id, m)]) mg)
  end.

(** The framework after a successful start: every registered migration
    has run and has its entry in the log, and nothing stays registered. *)
Definition completed (mg : t) : t :=
  with_migrations []
    (with_log
       (foldr (fun '(id, _) log => <[id := {| Success := true; Timestamp := 0 |}]> log)
          (migration_log mg) (migrations mg))
       mg).
End Migrator.

(** ** Reading traces of the session *)

(** The statements a run sent through [sess.Exec], in order. *)
Definition statements (t : list SessEvent) : list (string * list Z) :=
  omap (fun e => match e with
                 | EvExec sql args _ => Some (sql, args)
                 | _ => None
                 end) t.

(** The six statements of the removal migration, in the order of the
    source. *)
Definition rmStatements : list (string * list Z) :=
  [ ("delete from alert_rule", []);
    ("delete from alert_rule_version", []);
    ("delete from dashboard_acl where dashboard_id IN (select id from dashboard where created_by = ?)",
     [FOLDER_CREATED_BY]);
    ("delete from dashboard where created_by = ?", [FOLDER_CREATED_BY]);
    ("delete from alert_configuration", []);
    ("delete from alert_instance", []) ].

(** The order the specification gives for the same statements: rule
    versions, rules, ACL entries of synthesized folders, synthesized
    folders, alert configuration, alert instances. *)
Definition rmStatementsOfSpec : list (string * list Z) :=
  [ ("delete from alert_rule_version", []);
    ("delete from alert_rule", []);
    ("delete from dashboard_acl where dashboard_id IN (select id from dashboard where created_by = ?)",
     [FOLDER_CREATED_BY]);
    ("delete from dashboard where created_by = ?", [FOLDER_CREATED_BY]);
    ("delete from alert_configuration", []);
    ("delete from alert_instance", []) ].

(** The rule inserts of a run with their outcome, in order. *)
Definition inserts (t : list SessEvent) : list (alertRule.t * option error) :=
  omap (fun e => match e with
                 | EvInsertRule rule err => Some (rule, err)
                 | _ => None
                 end) t.

(** The version inserts of a run with their outcome, in order. *)
Definition versionInserts (t : list SessEvent)
    : list (alertRuleVersion.t * option error) :=
  omap (fun e => match e with
                 | EvInsertVersion v err => Some (v, err)
                 | _ => None
                 end) t.

(** The calls of [makeAlertRule] of a run: the folder uid each was given
    and its answer. *)
Definition made (t : list SessEvent) : list (string * Res alertRule.t) :=
  omap (fun e => match e with
                 | EvMakeAlertRule _ _ folderUID r => Some (folderUID, r)
                 | _ => None
                 end) t.

(** The calls that create a folder or touch an ACL. *)
Definition isResolution (e : SessEvent) : bool :=
  match e with
  | EvCreateFolder _ _ _ | EvGetACL _ _ _ | EvSetACL _ _ _ _
  | EvGetOrCreateGeneralFolder _ _ => true
  | _ => false
  end.

Definition resolution (t : list SessEvent) : list SessEvent :=
  List.filter isResolution t.

(** Every operation a program can send satisfies [Q]. *)
Fixpoint sends {Op : Type} {resp : Op -> Type} {R : Type} (Q : Op -> Prop)
    (p : Prog Op resp R) : Prop :=
  match p with
  | Ret _ => True
  | Vis o k => Q o /\ forall x, sends Q (k x)
  end.

(** The "General Alerting" folders of an organisation in the store. *)
Definition generalFolders (orgId : Z) (db : Store.DB) : list dashboard.t :=
  List.filter (Store.isGeneralFolder orgId) (Store.dashboard db).

(** The operations of the forward migration: no statement through
    [sess.Exec], and no folder created under the title of the general
    folder other than by [getOrCreateGeneralFolder]. *)
Definition forwardOp (o : SessOp) : Prop :=
  match o with
  | createFolder _ title => title <> GENERAL_FOLDER
  | SessExec _ _ => False
  | _ => True
  end.

(** ** Sample rows *)

Module Sample.
Definition emptyDB : Store.DB :=
  {| Store.alert := []; Store.data_source := ∅; Store.dashboard := [];
     Store.dashboard_acl := []; Store.alert_rule := [];
     Store.alert_rule_version := []; Store.alert_configuration := [];
     Store.alert_instance := []; Store.next_id := 100; Store.faults := [] |}.

Definition row (id : Z) (uid title : string) (folderId : Z)
    (hasAcl isFolder : bool) : dashboard.t :=
  {| dashboard.Id := id; dashboard.OrgId := 1; dashboard.Uid := uid;
     dashboard.Title := title; dashboard.FolderId := folderId;
     dashboard.HasAcl := hasAcl; dashboard.IsFolder := isFolder;
     dashboard.CreatedBy := 1 |}.

(** A folder, a folder without uid, and dashboards: at the root, in the
    folder, in the folder with an ACL of its own, under a parent that
    does not exist, under a parent that is a dashboard, under the folder
    without uid. *)
Definition teamFolder := row 5 "fold5" "Team" 0 false true.
Definition namelessFolder := row 6 "" "Nameless" 0 false true.
Definition rootDash := row 10 "d10" "Root" 0 false false.
Definition teamDash := row 11 "d11" "In team" 5 false false.
Definition aclDash := row 12 "d12" "Own ACL" 5 true false.
Definition orphanDash := row 13 "d13" "Orphan" 99 false false.
Definition nestedDash := row 14 "d14" "Under a dashboard" 10 false false.
Definition namelessDash := row 15 "d15" "Under nameless" 6 false false.

Definition alertOn (id dashboardId datasourceId : Z) (name : string) : dashAlert.t :=
  {| dashAlert.Id := id; dashAlert.OrgId := 1; dashAlert.DashboardId := dashboardId;
     dashAlert.PanelId := 2; dashAlert.Name := name; dashAlert.DashboardUID := "";
     dashAlert.ParsedSettings := [{| DatasourceId := datasourceId; Query := "A" |}] |}.

Definition rootAlert := alertOn 1 10 3 "cpu".
Definition teamAlert := alertOn 2 11 3 "mem".
Definition aclAlert := alertOn 3 12 3 "disk".
Definition orphanAlert := alertOn 4 13 3 "net".
Definition nestedAlert := alertOn 5 14 3 "io".
Definition namelessAlert := alertOn 6 15 3 "fan".
(** refers to datasource 7, which has no uid *)
Definition lostAlert := alertOn 7 10 7 "lost".
Definition rootAlert' := alertOn 8 10 3 "cpu".

Definition grants : list dashboardACL.t :=
  [ {| dashboardACL.DashboardId := 12; dashboardACL.OrgId := 1;
       dashboardACL.Principal := "team:ops"; dashboardACL.Permission := 2 |};
    {| dashboardACL.DashboardId := 5; dashboardACL.OrgId := 1;
       dashboardACL.Principal := "role:Viewer"; dashboardACL.Permission := 1 |} ].

Definition db (alerts : list dashAlert.t) : Store.DB :=
  {| Store.alert := alerts;
     Store.data_source := {[ (1, 3) := "ds-prom" ]};
     Store.dashboard :=
       [teamFolder; namelessFolder; rootDash; teamDash; aclDash; orphanDash;
        nestedDash; namelessDash];
     Store.dashboard_acl := grants;
     Store.alert_rule := []; Store.alert_rule_version := [];
     Store.alert_configuration := [1]; Store.alert_instance := [1; 2];
     Store.next_id := 100; Store.faults := [] |}.

Definition dsIDMap : gmap (Z * Z) string := {[ (1, 3) := "ds-prom" ]}.
Definition dashIDMap : gmap (Z * Z) string :=
  list_to_map
    (List.map (fun d => ((dashboard.OrgId d, dashboard.Id d), dashboard.Uid d))
       (Store.dashboard (db []))).

(** The same store with a rule that already holds the uid the run will
    generate next for its rule. *)
Definition clashDB (alerts : list dashAlert.t) : Store.DB :=
  Store.with_alert_rule
    [ {| alertRule.Uid := "rule-101"; alertRule.OrgId := 1;
         alertRule.NamespaceUID := "fold5"; alertRule.Title := "old";
         alertRule.RuleGroup := "old"; alertRule.Condition := [] |} ]
    (db alerts).

(** The rule made for the second alert named "cpu" once the first is
    migrated, and the condition the sample alerts translate to. *)
Definition promCond : condition := [{| DatasourceUid := "ds-prom"; Model := "A" |}].
Definition cpuRule : alertRule.t :=
  {| alertRule.Uid := "rule-102"; alertRule.OrgId := 1;
     alertRule.NamespaceUID := "folder-100"; alertRule.Title := "cpu";
     alertRule.RuleGroup := "cpu"; alertRule.Condition := promCond |}.

(** A migrator with the variable set, the toggle enabled and an empty
    log. *)
Definition freshMigrator : Migrator.t :=
  {| Migrator.environ := {[ "UALERT_MIG" := "iDidBackup" ]};
     Migrator.migration_log := ∅; Migrator.log_error := None;
     Migrator.ngAlertEnabled := true; Migrator.migrations := [];
     Migrator.logger := [] |}.
End Sample.

(** ** Reading traces: further observations *)

(** The three bulk reads at the start of [Exec]. *)
Definition isBulkRead (e : SessEvent) : bool :=
  match e with
  | EvSlurpDashAlerts _ | EvSlurpDSIDs _ | EvSlurpDashUIDs _ => true
  | _ => false
  end.

(** The error of a call of folder resolution that failed. *)
Definition resolutionFailure (e : SessEvent) : option error :=
  match e with
  | EvCreateFolder _ _ (Fail err) | EvGetACL _ _ (Fail err)
  | EvGetOrCreateGeneralFolder _ (Fail err) => Some err
  | EvSetACL _ _ _ (Some err) => Some err
  | _ => None
  end.


(** The entries of the migration log a run asked to clear, with the
    answer, and the errors it logged. *)
Definition cleared (t : list MgEvent) : list (string * option error) :=
  omap (fun e => match e with
                 | EvClearMigrationEntry id err => Some (id, err)
                 | _ => None
                 end) t.

Definition logged (t : list MgEvent) : list error :=
  omap (fun e => match e with
                 | EvLoggerError _ err | EvLoggerCrit _ err => Some err
                 | _ => None
                 end) t.

(** The statements of a list applied to the store one after the other. *)
Definition applyStatements (stmts : list (string * list Z)) (db : Store.DB)
    : Store.DB :=
  fold_left (fun db '(sql, args) => (Store.exec sql args db).2) stmts db.

From Stdlib Require Import Ascii.

(** ** Error messages

    [fmt.Sprintf] and [fmt.Errorf], for the verbs the formats of the package
    use: [%d], [%s], [%v] and, in [fmt.Errorf], [%w].  An operand a verb
    does not support is printed as [%!verb(type=value)], a verb without
    operand as [%!verb(MISSING)], operands left over as [%!(EXTRA ...)],
    and the nil operand of [%w] as [%!w(<nil>)].  Widths, flags and the
    other verbs do not occur in the package: any other character after
    [%] is printed as a verb its operand does not support. *)

Definition typed (a : arg) : string :=
  match a with
  | AInt n => "int64=" +:+ pretty n
  | AStr s => "string=" +:+ s
  end.

Definition badVerb (verb : Ascii.ascii) (a : arg) : string :=
  "%!" +:+ String verb ("(" +:+ typed a +:+ ")").

Definition renderArg (verb : Ascii.ascii) (a : arg) : string :=
  match a with
  | AInt n =>
      if Ascii.eqb verb "d"%char || Ascii.eqb verb "v"%char then pretty n
      else badVerb verb a
  | AStr s =>
      if Ascii.eqb verb "s"%char || Ascii.eqb verb "v"%char then s
      else badVerb verb a
  end.

Fixpoint extra (args : list arg) : string :=
  match args with
  | [] => ""
  | [a] => typed a
  | a :: rest => typed a +:+ ", " +:+ extra rest
  end.

(** What the end of the format does with the operands left over. *)
Definition leftover (args : list arg) : string :=
  match args with
  | [] => ""
  | _ => "%!(EXTRA " +:+ extra args +:+ ")"
  end.

(** [wrapped] is the message of the operand of [%w], [None] for nil. *)
Fixpoint sprintf (format : string) (args : list arg) (wrapped : option string)
    : string :=
  match format with
  | EmptyString => leftover args
  | String c tail =>
      if Ascii.eqb c "%"%char then
        match tail with
        | EmptyString => "%!(NOVERB)" +:+ leftover args
        | String verb rest =>
            if Ascii.eqb verb "%"%char then String "%"%char (sprintf rest args wrapped)
            else if Ascii.eqb verb "w"%char then
              match wrapped with
              | Some msg => msg
              | None => "%!w(<nil>)"
              end +:+ sprintf rest args wrapped
            else
              match args with
              | a :: args' => renderArg verb a +:+ sprintf rest args' wrapped
              | [] => "%!" +:+ String verb "(MISSING)" +:+ sprintf rest [] wrapped
              end
        end
      else String c (sprintf tail args wrapped)
  end.

(** The method [Error] of the error values: the message of [fmt.Errorf]
    values, [func (e MigrationError) Error() string] of the package, and
    the message a foreign error carries. *)
Fixpoint Error (e : error) : string :=
  match e with
  | Errorf format args => sprintf format args None
  | Errorfw format args w => sprintf format args (Some (Error w))
  | MigrationError alertId err =>
      sprintf "failed to migrate alert %d: %s" [AInt alertId; AStr (Error err)] None
  | Foreign msg => msg
  end.

(** The error of a call to the session or to a helper that the loop body
    wraps: the two row lookups and the calls of folder resolution. *)
Definition wrappedFailure (e : SessEvent) : option error :=
  match e with
  | EvGet _ _ (Fail err) => Some err
  | _ => resolutionFailure e
  end.

(** The characters of a decimal number: the digits and the sign. *)
Definition isNumChar (c : Ascii.ascii) : bool :=
  ((48 <=? nat_of_ascii c)%nat && (nat_of_ascii c <=? 57)%nat)
  || Ascii.eqb c "-"%char.

Fixpoint numeric (s : string) : bool :=
  match s with
  | EmptyString => true
  | String c rest => isNumChar c && numeric rest
  end.

(** The stage of the loop body an event belongs to: row lookups, folder
    resolution, rule synthesis, rule inserts, version insert; the events of
    the bulk reads and of [sess.Exec] belong to none. *)
Definition phase (e : SessEvent) : nat :=
  match e with
  | EvGet _ _ _ => 0
  | EvCreateFolder _ _ _ | EvGetACL _ _ _ | EvSetACL _ _ _ _
  | EvGetOrCreateGeneralFolder _ _ => 1
  | EvMakeAlertRule _ _ _ _ => 2
  | EvInsertRule _ _ => 3
  | EvInsertVersion _ _ => 4
  | EvSlurpDashAlerts _ | EvSlurpDSIDs _ | EvSlurpDashUIDs _ | EvExec _ _ _ => 5
  end%nat.

Fixpoint ascending (l : list nat) : bool :=
  match l with
  | a :: (b :: _) as rest => (a <=? b)%nat && ascending rest
  | _ => true
  end.

(** * Properties *)

(** ** Running programs *)

Section RunFacts.
Context {Op : Type} {resp : Op -> Type} {St Event : Type}.
Variable ev : forall o : Op, resp o -> Event.
Variable h : forall o : Op, St -> resp o * St.

Lemma run_bind {A B} (p : Prog Op resp A) (f : A -> Prog Op resp B) (s : St) :
  run ev h (bind p f) s =
  let '(a, s1, t1) := run ev h p s in
  let '(b, s2, t2) := run ev h (f a) s1 in
  (b, s2, t1 ++ t2).
Proof.
  revert s. induction p as [a | o k IH]; intros s; simpl.
  - destruct (run ev h (f a) s) as [[b s2] t2]. reflexivity.
  - destruct (h o s) as [x s1]. rewrite IH.
    destruct (run ev h (k x) s1) as [[a s2] t1].
    destruct (run ev h (f a) s2) as [[b s3] t2]. reflexivity.
Qed.

Lemma run_try {A B} (p : Prog Op resp (Res A)) (wrap : error -> error)
    (f : A -> Prog Op resp (Res B)) (s : St) :
  run ev h (try p wrap f) s =
  let '(r, s1, t1) := run ev h p s in
  match r with
  | Ok a => let '(b, s2, t2) := run ev h (f a) s1 in (b, s2, t1 ++ t2)
  | Fail e => (Fail (wrap e), s1, t1)
  end.
Proof.
  unfold try. rewrite run_bind.
  destruct (run ev h p s) as [[[a | e] s1] t1]; simpl.
  - reflexivity.
  - rewrite app_nil_r. reflexivity.
Qed.

End RunFacts.

(** ** Registration *)

(** Case analysis on every answer of the collaborators met in the goal. *)
Ltac answer h :=
  repeat (cbn -[migTitle rmMigTitle lookup];
          match goal with
          | |- context [h ?o ?s] =>
              let x := fresh "x" in
              let s' := fresh "s" in
              destruct (h o s) as [x s']; cbn in x;
              try match type of x with
                  | unit => destruct x
                  | bool => destruct x
                  | Res _ => destruct x
                  | option _ => destruct x
                  end
          end).

(** C5. The forward migration is registered exactly when the environment
    variable equals "iDidBackup", the ng-alert toggle is enabled and the
    migration log has no entry for the forward migration; the removal
    migration exactly when the variable equals "iDidBackup", the toggle is
    disabled and the log has the forward entry; nothing else is ever
    registered.  Hence a later call that finds the forward entry in the
    log, the toggle still enabled, registers nothing.  The answers of the
    collaborators are arbitrary ([h]). *)
Theorem AddMigration_registers {St} (h : forall o, St -> mgResp o * St) (s : St) :
  let '(env, s1) := h (Getenv "UALERT_MIG") s in
  let '(logs, s2) := h GetMigrationLog s1 in
  let '(ngEnabled, _) := h IsNgAlertEnabled s2 in
  let reg := registered (trace mgEv h AddMigration s) in
  (In (migTitle, migration) reg <->
     env = "iDidBackup" /\ ngEnabled = true /\
     exists l, logs = Ok l /\ l !! migTitle = None)
  /\ (In (rmMigTitle, rmMigration) reg <->
     env = "iDidBackup" /\ ngEnabled = false /\
     exists l, logs = Ok l /\ is_Some (l !! migTitle))
  /\ (forall x, In x reg -> x = (migTitle, migration) \/ x = (rmMigTitle, rmMigration))
  /\ ((exists l, logs = Ok l /\ is_Some (l !! migTitle)) -> ngEnabled = true ->
      reg = []).
Proof.
  unfold trace, AddMigration.
  destruct (h (Getenv "UALERT_MIG") s) as [env s1] eqn:Henv. cbn in env.
  destruct (h GetMigrationLog s1) as [logs s2] eqn:Hlogs. cbn in logs.
  destruct (h IsNgAlertEnabled s2) as [ng s3] eqn:Hng. cbn in ng.
  cbn -[migTitle rmMigTitle lookup]. rewrite Henv.
  destruct (String.eqb_spec env "iDidBackup") as [-> | Hne];
    [| cbn; repeat split; try tauto; intros (E & _); contradiction].
  cbn -[migTitle rmMigTitle lookup]. rewrite Hlogs.
  destruct logs as [l | e].
  2: { answer h. repeat split; naive_solver. }
  cbn -[migTitle rmMigTitle lookup]. rewrite Hng.
  destruct (l !! migTitle) as [entry |] eqn:Hl.
  - rewrite bool_decide_eq_true_2 by eauto.
    destruct ng; answer h; repeat split; naive_solver.
  - rewrite bool_decide_eq_false_2 by (intros [? ?]; discriminate).
    destruct ng; answer h; repeat split;
      solve [ naive_solver
            | intros; repeat match goal with H : _ /\ _ |- _ => destruct H end;
              match goal with
              | H : exists _, Ok _ = Ok _ /\ is_Some _ |- _ =>
                  destruct H as (? & [= <-] & [? ?]); congruence
              end ].
Qed.

(** C10. Outside the two trigger conditions [AddMigration] registers
    nothing.  With the variable different from "iDidBackup" the only call
    is the read of the variable: the migration log is not read, the toggle
    is not consulted, nothing is cleared or registered.  With the variable
    set, nothing is registered when the log cannot be read, when the toggle
    is enabled and the forward entry is in the log, or when the toggle is
    disabled and the forward entry is not in the log; in the last two
    cases no log entry is cleared either. *)
Theorem AddMigration_registers_nothing_otherwise {St}
    (h : forall o, St -> mgResp o * St) (s : St) :
  let '(env, s1) := h (Getenv "UALERT_MIG") s in
  let '(logs, s2) := h GetMigrationLog s1 in
  let '(ngEnabled, s3) := h IsNgAlertEnabled s2 in
  let t := trace mgEv h AddMigration s in
  (env <> "iDidBackup" ->
     run mgEv h AddMigration s = (Returned, s1, [EvGetenv "UALERT_MIG" env])
     /\ readsLog t = false /\ registered t = [])
  /\ (env = "iDidBackup" ->
      (forall e, logs = Fail e -> registered t = [])
      /\ (forall l, logs = Ok l -> ngEnabled = true -> is_Some (l !! migTitle) ->
          run mgEv h AddMigration s =
            (Returned, s3,
             [EvGetenv "UALERT_MIG" env; EvGetMigrationLog logs;
              EvIsNgAlertEnabled true])
          /\ registered t = [])
      /\ (forall l, logs = Ok l -> ngEnabled = false -> l !! migTitle = None ->
          run mgEv h AddMigration s =
            (Returned, s3,
             [EvGetenv "UALERT_MIG" env; EvGetMigrationLog logs;
              EvIsNgAlertEnabled false])
          /\ registered t = []))
  /\ (~ (env = "iDidBackup" /\ ngEnabled = true /\
         exists l, logs = Ok l /\ l !! migTitle = None) ->
      ~ (env = "iDidBackup" /\ ngEnabled = false /\
         exists l, logs = Ok l /\ is_Some (l !! migTitle)) ->
      registered t = []).
Proof.
  unfold trace, AddMigration.
  destruct (h (Getenv "UALERT_MIG") s) as [env s1] eqn:Henv. cbn in env.
  destruct (h GetMigrationLog s1) as [logs s2] eqn:Hlogs. cbn in logs.
  destruct (h IsNgAlertEnabled s2) as [ng s3] eqn:Hng. cbn in ng.
  cbn -[migTitle rmMigTitle lookup]. rewrite Henv.
  destruct (String.eqb_spec env "iDidBackup") as [-> | Hne].
  2: { cbn. repeat split; try reflexivity; intros; contradiction. }
  cbn -[migTitle rmMigTitle lookup]. rewrite Hlogs.
  split; [intros; contradiction |].
  destruct logs as [l | e].
  2: { answer h. repeat split; intros; try discriminate; reflexivity. }
  cbn -[migTitle rmMigTitle lookup]. rewrite Hng.
  destruct (l !! migTitle) as [entry |] eqn:Hl.
  - rewrite bool_decide_eq_true_2 by eauto.
    destruct ng.
    + cbn. repeat split; intros; simplify_eq; try reflexivity; congruence.
    + answer h; (split; [intros _; repeat split; intros; simplify_eq; congruence |]);
        intros _ Hrm; exfalso; apply Hrm; eauto 10.
  - rewrite bool_decide_eq_false_2 by (intros [? ?]; discriminate).
    destruct ng.
    + answer h; (split; [intros _; repeat split; intros; simplify_eq;
                         match goal with H : is_Some _ |- _ => destruct H; congruence end |]);
        intros Hfw; exfalso; apply Hfw; eauto 10.
    + cbn. repeat split; intros; simplify_eq; try reflexivity; congruence.
Qed.

(** ** The removal migration *)

Lemma rmExec_statements_prefix {St} (h : forall o, St -> sessResp o * St) (s : St) :
  statements (trace sessEv h rmExec s) `prefix_of` rmStatements
  /\ (result sessEv h rmExec s = Ok tt ->
      statements (trace sessEv h rmExec s) = rmStatements).
Proof.
  unfold trace, result, rmExec, execOrReturn, rmStatements.
  repeat (cbn -[FOLDER_CREATED_BY];
          match goal with
          | |- context [h ?o ?s] =>
              let x := fresh "x" in
              let s' := fresh "s" in
              destruct (h o s) as [[x |] s']
          end);
    cbn -[FOLDER_CREATED_BY];
    (split; [| first [ discriminate | reflexivity ] ]);
    repeat first [ apply prefix_cons | apply prefix_nil ]; reflexivity.
Qed.

(** The six statements on the in-memory store. *)
Lemma exec_rmStatements (db : Store.DB) :
  Store.exec "delete from alert_rule" [] db = (None, Store.with_alert_rule [] db)
  /\ Store.exec "delete from alert_rule_version" [] db
     = (None, Store.with_alert_rule_version [] db)
  /\ Store.exec "delete from dashboard_acl where dashboard_id IN (select id from dashboard where created_by = ?)"
       [FOLDER_CREATED_BY] db
     = (None, Store.with_dashboard_acl
                (Store.keep (Store.aclOfCreatedBy FOLDER_CREATED_BY (Store.dashboard db))
                   (Store.dashboard_acl db)) db)
  /\ Store.exec "delete from dashboard where created_by = ?" [FOLDER_CREATED_BY] db
     = (None, Store.with_dashboard
                (Store.keep (Store.createdBy FOLDER_CREATED_BY) (Store.dashboard db)) db)
  /\ Store.exec "delete from alert_configuration" [] db
     = (None, Store.with_alert_configuration [] db)
  /\ Store.exec "delete from alert_instance" [] db
     = (None, Store.with_alert_instance [] db).
Proof. repeat split; reflexivity. Qed.

(** One statement of the removal migration on the store: case analysis on
    the fault schedule, then the statement read as SQL. *)
Ltac store_exec :=
  unfold storeHandler;
  cbn -[Store.exec FOLDER_CREATED_BY Store.keep storeHandler];
  repeat match goal with
         | |- context [Store.exec ?q ?a ?db] =>
             let H := fresh in
             pose proof (exec_rmStatements db) as H;
             destruct H as (H1 & H2 & H3 & H4 & H5 & H6);
             first [ rewrite H1 | rewrite H2 | rewrite H3
                   | rewrite H4 | rewrite H5 | rewrite H6 ];
             clear H1 H2 H3 H4 H5 H6
         end;
  cbn -[Store.exec FOLDER_CREATED_BY Store.keep storeHandler].

Lemma rmExec_store_tables (db : Store.DB) :
  let db' := final sessEv storeHandler rmExec db in
  (Store.dashboard db' = Store.dashboard db
   \/ Store.dashboard db' = Store.keep (Store.createdBy FOLDER_CREATED_BY) (Store.dashboard db))
  /\ (Store.dashboard_acl db' = Store.dashboard_acl db
      \/ Store.dashboard_acl db' =
         Store.keep (Store.aclOfCreatedBy FOLDER_CREATED_BY (Store.dashboard db))
           (Store.dashboard_acl db))
  /\ (result sessEv storeHandler rmExec db = Ok tt ->
      Store.dashboard db' = Store.keep (Store.createdBy FOLDER_CREATED_BY) (Store.dashboard db)
      /\ Store.dashboard_acl db' =
         Store.keep (Store.aclOfCreatedBy FOLDER_CREATED_BY (Store.dashboard db))
           (Store.dashboard_acl db)
      /\ Store.alert_rule db' = [] /\ Store.alert_rule_version db' = []
      /\ Store.alert_configuration db' = [] /\ Store.alert_instance db' = []).
Proof.
  unfold final, result, rmExec, execOrReturn.
  destruct db as [al ds dash acl rules versions conf inst nid fl].
  cbn -[storeHandler FOLDER_CREATED_BY].
  repeat (store_exec;
          match goal with
          | |- context [match ?f with [] => _ | _ => _ end] =>
              is_var f; destruct f as [| [? |] ?]
          end);
    store_exec; repeat split; auto; discriminate.
Qed.

Lemma In_keep {A} (deleted : A -> bool) (rows : list A) (r : A) :
  In r (Store.keep deleted rows) <-> In r rows /\ deleted r = false.
Proof.
  unfold Store.keep. rewrite filter_In, negb_true_iff. reflexivity.
Qed.

Lemma keep_keep {A} (deleted : A -> bool) (rows : list A) :
  Store.keep deleted (Store.keep deleted rows) = Store.keep deleted rows.
Proof.
  unfold Store.keep. induction rows as [| r rows IH]; simpl; [reflexivity |].
  destruct (deleted r) eqn:E; simpl; [exact IH |].
  rewrite E. simpl. f_equal. exact IH.
Qed.

Lemma aclOfCreatedBy_false (marker : Z) (dashboards : list dashboard.t)
    (a : dashboardACL.t) :
  (forall d, In d dashboards -> dashboard.Id d = dashboardACL.DashboardId a ->
             dashboard.CreatedBy d <> marker) ->
  Store.aclOfCreatedBy marker dashboards a = false.
Proof.
  intros Hno. unfold Store.aclOfCreatedBy.
  apply not_true_is_false. intros Hex.
  apply existsb_exists in Hex. destruct Hex as (d & Hin & Hd).
  apply andb_true_iff in Hd. destruct Hd as [Hc Hid].
  unfold Store.createdBy in Hc. apply Z.eqb_eq in Hc, Hid.
  exact (Hno d Hin Hid Hc).
Qed.

(** C4, as the code has it.  Under any behaviour of the session the
    removal migration sends a prefix of: delete the rules, delete the rule
    versions, delete the ACL entries of the dashboards created by the
    marker, delete the dashboards created by the marker, delete the alert
    configurations, delete the alert instances; it sends all six, in this
    order, when it returns without error; a statement that fails is the
    last one sent and its error is the result, so that a statement is sent
    only after every earlier one succeeded.  On the in-memory store a run
    without error leaves the four alerting tables empty whatever they held,
    and filters the two folder tables by the marker only. *)
Theorem rmExec_order {St} (h : forall o, St -> sessResp o * St) (s : St) :
  statements (trace sessEv h rmExec s) `prefix_of` rmStatements
  /\ (result sessEv h rmExec s = Ok tt ->
      statements (trace sessEv h rmExec s) = rmStatements)
  /\ (forall sql args e,
        In (EvExec sql args (Some e)) (trace sessEv h rmExec s) ->
        last (trace sessEv h rmExec s) = Some (EvExec sql args (Some e))
        /\ result sessEv h rmExec s = Fail e)
  /\ (forall db : Store.DB,
        result sessEv storeHandler rmExec db = Ok tt ->
        let db' := final sessEv storeHandler rmExec db in
        Store.alert_rule db' = [] /\ Store.alert_rule_version db' = []
        /\ Store.alert_configuration db' = [] /\ Store.alert_instance db' = []
        /\ Store.dashboard db' =
           List.filter (fun d => negb (dashboard.CreatedBy d =? FOLDER_CREATED_BY))
             (Store.dashboard db)
        /\ Store.dashboard_acl db' =
           List.filter
             (fun a => negb (existsb
                (fun d => (dashboard.CreatedBy d =? FOLDER_CREATED_BY)
                          && (dashboard.Id d =? dashboardACL.DashboardId a))
                (Store.dashboard db)))
             (Store.dashboard_acl db)).
Proof.
  destruct (rmExec_statements_prefix h s) as [Hpre Hall].
  split; [exact Hpre |]. split; [exact Hall |].
  split.
  { clear Hpre Hall. unfold trace, result, rmExec, execOrReturn, sess, call.
    repeat (cbn [run bind];
            lazymatch goal with
            | |- context [h ?o ?s0] =>
                let x := fresh "x" in
                let s' := fresh "s" in
                destruct (h o s0) as [[x |] s']
            end);
      cbn [run bind fst snd sessEv];
      intros sql args e Hin;
      repeat (destruct Hin as [Hin | Hin]; [try discriminate Hin |]);
      try contradiction;
      injection Hin as <- <- <-; split; reflexivity. }
  intros db Hok. cbv zeta.
  pose proof (rmExec_store_tables db) as Htab. cbv zeta in Htab.
  destruct Htab as (_ & _ & Htab).
  destruct (Htab Hok) as (Hd & Ha & Hr & Hv & Hc & Hi).
  repeat split; assumption.
Qed.

(** C4, as the specification words it, fails: on the empty store every
    statement succeeds, and the first statement sent deletes the rules, not
    the rule versions. *)
Lemma rmExec_order_of_spec_counterexample :
  result sessEv storeHandler rmExec Sample.emptyDB = Ok tt
  /\ statements (trace sessEv storeHandler rmExec Sample.emptyDB) <> rmStatementsOfSpec
  /\ head (statements (trace sessEv storeHandler rmExec Sample.emptyDB))
     = Some ("delete from alert_rule", []).
Proof.
  vm_compute. repeat split; [discriminate].
Qed.

(** C6. Whatever the store holds and whichever statements it fails, the
    removal migration adds or changes no dashboard row and no ACL row,
    keeps every dashboard row whose creator is not the marker (the rows
    with another creator are the same list before and after), and keeps
    every ACL row that belongs to no dashboard created by the marker.
    A run without error deletes exactly the dashboards created by the
    marker and the ACL rows of those dashboards. *)
Theorem rmExec_frame (db : Store.DB) :
  let db' := final sessEv storeHandler rmExec db in
  let synthetic := fun d => dashboard.CreatedBy d =? FOLDER_CREATED_BY in
  List.filter (fun d => negb (synthetic d)) (Store.dashboard db')
    = List.filter (fun d => negb (synthetic d)) (Store.dashboard db)
  /\ (forall d, In d (Store.dashboard db') -> In d (Store.dashboard db))
  /\ (forall d, In d (Store.dashboard db) ->
                dashboard.CreatedBy d <> FOLDER_CREATED_BY ->
                In d (Store.dashboard db'))
  /\ (forall d, In d (Store.dashboard db) -> ~ In d (Store.dashboard db') ->
                dashboard.CreatedBy d = FOLDER_CREATED_BY)
  /\ (forall a, In a (Store.dashboard_acl db') -> In a (Store.dashboard_acl db))
  /\ (forall a, In a (Store.dashboard_acl db) ->
                (forall d, In d (Store.dashboard db) ->
                           dashboard.Id d = dashboardACL.DashboardId a ->
                           dashboard.CreatedBy d <> FOLDER_CREATED_BY) ->
                In a (Store.dashboard_acl db'))
  /\ (result sessEv storeHandler rmExec db = Ok tt ->
      (forall d, In d (Store.dashboard db') <->
                 In d (Store.dashboard db) /\ dashboard.CreatedBy d <> FOLDER_CREATED_BY)
      /\ (forall a, In a (Store.dashboard_acl db') <->
                    In a (Store.dashboard_acl db) /\
                    ~ exists d, In d (Store.dashboard db) /\
                                dashboard.CreatedBy d = FOLDER_CREATED_BY /\
                                dashboard.Id d = dashboardACL.DashboardId a)).
Proof.
  intros db' synthetic.
  pose proof (rmExec_store_tables db) as Htab. cbv zeta in Htab.
  fold db' in Htab. destruct Htab as (Hd & Ha & Hok).
  change (fun d => negb (synthetic d)) with
    (fun d => negb (Store.createdBy FOLDER_CREATED_BY d)).
  change (List.filter (fun d => negb (Store.createdBy FOLDER_CREATED_BY d)))
    with (Store.keep (Store.createdBy FOLDER_CREATED_BY)).
  assert (Hkept : forall d, dashboard.CreatedBy d <> FOLDER_CREATED_BY ->
                            Store.createdBy FOLDER_CREATED_BY d = false).
  { intros d Hne. unfold Store.createdBy. apply Z.eqb_neq. exact Hne. }
  split; [destruct Hd as [-> | ->]; [reflexivity | apply keep_keep] |].
  split.
  { intros d. destruct Hd as [-> | ->]; [tauto |]. rewrite In_keep. tauto. }
  split.
  { intros d Hin Hne. destruct Hd as [-> | ->]; [exact Hin |].
    apply In_keep. split; [exact Hin | apply Hkept, Hne]. }
  split.
  { intros d Hin Hout.
    destruct (Z.eq_dec (dashboard.CreatedBy d) FOLDER_CREATED_BY) as [E | Hne];
      [exact E |].
    exfalso. apply Hout. destruct Hd as [-> | ->]; [exact Hin |].
    apply In_keep. split; [exact Hin | apply Hkept, Hne]. }
  split.
  { intros a. destruct Ha as [-> | ->]; [tauto |]. rewrite In_keep. tauto. }
  split.
  { intros a Hin Hno. destruct Ha as [-> | ->]; [exact Hin |].
    apply In_keep. split; [exact Hin | apply aclOfCreatedBy_false, Hno]. }
  intros Hres. destruct (Hok Hres) as (Hd' & Ha' & _). rewrite Hd', Ha'. split.
  - intros d. rewrite In_keep. unfold Store.createdBy. rewrite Z.eqb_neq. tauto.
  - intros a. rewrite In_keep. split.
    + intros [Hin Hf]. split; [exact Hin |]. intros (d & Hdin & Hc & Hid).
      assert (Store.aclOfCreatedBy FOLDER_CREATED_BY (Store.dashboard db) a = true);
        [| congruence].
      unfold Store.aclOfCreatedBy. apply existsb_exists. exists d.
      split; [exact Hdin |]. apply andb_true_iff.
      unfold Store.createdBy. split; apply Z.eqb_eq; assumption.
    + intros [Hin Hno]. split; [exact Hin |].
      apply aclOfCreatedBy_false. intros d Hdin Hid Hc. apply Hno. eauto.
Qed.

(** ** The loop *)

Section LoopFacts.
Context {Op : Type} {resp : Op -> Type} {St Event A : Type}.
Variable ev : forall o : Op, resp o -> Event.
Variable h : forall o : Op, St -> resp o * St.
Variable body : A -> Prog Op resp (Res unit).

(** An iteration that fails ends the loop: the later elements are not
    visited. *)
Lemma forRange_fails (x : A) (rest : list A) (s s1 : St) (e : error)
    (t : list Event) :
  run ev h (body x) s = (Fail e, s1, t) ->
  run ev h (forRange (x :: rest) body) s = (Fail e, s1, t).
Proof.
  intros Hx. cbn [forRange]. rewrite run_bind, Hx. cbn.
  rewrite app_nil_r. reflexivity.
Qed.

Lemma forRange_continues (x : A) (rest : list A) (s s1 : St) (u : unit)
    (t : list Event) :
  run ev h (body x) s = (Ok u, s1, t) ->
  run ev h (forRange (x :: rest) body) s =
  let '(r, s2, t2) := run ev h (forRange rest body) s1 in (r, s2, t ++ t2).
Proof.
  intros Hx. cbn [forRange]. rewrite run_bind, Hx. reflexivity.
Qed.

(** A property of events that holds along every iteration holds along
    the loop. *)
Lemma forRange_trace_Forall (P : Event -> Prop) :
  (forall x s, Forall P (trace ev h (body x) s)) ->
  forall xs s, Forall P (trace ev h (forRange xs body) s).
Proof.
  intros Hbody xs. unfold trace in *.
  induction xs as [| x rest IH]; intros s; [constructor |].
  specialize (Hbody x s).
  destruct (run ev h (body x) s) as [[[u | e] s1] t] eqn:Hx.
  - rewrite (forRange_continues _ _ _ _ _ _ Hx).
    specialize (IH s1).
    destruct (run ev h (forRange rest body) s1) as [[r s2] t2].
    apply Forall_app. split; assumption.
  - rewrite (forRange_fails _ _ _ _ _ _ Hx). exact Hbody.
Qed.
End LoopFacts.

(** ** The forward migration: the loop body under any session *)

(** Unfolds the loop body and splits on every answer of the session and on
    every test of the code. *)
Ltac open_body :=
  unfold migrateAlert, getDashboard, getFolder, resolveFolder, persist,
    insertVersion, try, sess, call.

Ltac explore h :=
  repeat (cbn [run bind];
          lazymatch goal with
          | |- context [h ?o ?s] =>
              let x := fresh "x" in
              let s' := fresh "s" in
              let E := fresh "Hh" in
              destruct (h o s) as [x s'] eqn:E; cbn [sessResp] in x, E;
              try match type of x with
                  | Res (option _) => destruct x as [[?|]|?]
                  | Res _ => destruct x as [?|?]
                  | option _ => destruct x as [?|]
                  end
          | |- context [if dashboard.HasAcl ?d then _ else _] =>
              destruct (dashboard.HasAcl d) eqn:?
          | |- context [if dashboard.IsFolder ?d then _ else _] =>
              destruct (dashboard.IsFolder d) eqn:?
          | |- context [if 0 <? ?z then _ else _] =>
              destruct (Z.ltb_spec 0 z)
          | |- context [if String.eqb ?a ?b then _ else _] =>
              destruct (String.eqb_spec a b)
          | |- context [match transConditions ?a ?b ?c with _ => _ end] =>
              destruct (transConditions a b c) eqn:?
          end);
  cbn [run bind fst snd sessEv].

(** Splits a concrete trace into a front part and the events asked for. *)
Ltac front :=
  (exists []) + (eexists [_]) + (eexists [_; _]) + (eexists [_; _; _])
  + (eexists [_; _; _; _]) + (eexists [_; _; _; _; _])
  + (eexists [_; _; _; _; _; _]) + (eexists [_; _; _; _; _; _; _]).

Lemma loop_aborts {Op : Type} {resp : Op -> Type} {St Event A : Type}
    (ev : forall o : Op, resp o -> Event) (h : forall o : Op, St -> resp o * St)
    (body : A -> Prog Op resp (Res unit)) (x : A) (rest : list A) (s : St)
    (e : error) :
  result ev h (body x) s = Fail e ->
  run ev h (forRange (x :: rest) body) s = run ev h (body x) s.
Proof.
  unfold result. destruct (run ev h (body x) s) as [[r s1] t] eqn:Hx.
  cbn. intros ->. exact (forRange_fails ev h body x rest s s1 e t Hx).
Qed.

(** C3. In every iteration, under any behaviour of the session: a rule
    whose first insert succeeds is inserted once and not again; a rule whose
    first insert fails (with a uniqueness violation or any other error) is
    inserted exactly once more, with the same uid and with title and rule
    group extended by a space and the uid; when that second insert fails
    too, its error is the result of the iteration, no version is inserted,
    and the loop stops there without visiting the remaining alerts.  The
    rule inserted is the one [makeAlertRule] returned. *)
Theorem rule_insert_retried_once {helpers : Helpers} {St : Type}
    (h : forall o : SessOp, St -> sessResp o * St)
    (dsIDMap dashIDMap : gmap (Z * Z) string)
    (da : dashAlert.t) (rest : list dashAlert.t) (s : St) :
  let body := migrateAlert dsIDMap dashIDMap in
  let t := trace sessEv h (body da) s in
  (forall rule, head (inserts t) = Some (rule, None) -> inserts t = [(rule, None)])
  /\ (forall rule e1, head (inserts t) = Some (rule, Some e1) ->
      exists rule' err2,
        inserts t = [(rule, Some e1); (rule', err2)]
        /\ alertRule.Title rule' = alertRule.Title rule +:+ " " +:+ alertRule.Uid rule
        /\ alertRule.RuleGroup rule'
           = alertRule.RuleGroup rule +:+ " " +:+ alertRule.Uid rule
        /\ alertRule.Uid rule' = alertRule.Uid rule
        /\ alertRule.OrgId rule' = alertRule.OrgId rule
        /\ alertRule.NamespaceUID rule' = alertRule.NamespaceUID rule
        /\ alertRule.Condition rule' = alertRule.Condition rule
        /\ (forall e2, err2 = Some e2 ->
            result sessEv h (body da) s = Fail e2
            /\ last t = Some (EvInsertRule rule' (Some e2))
            /\ versionInserts t = []
            /\ run sessEv h (forRange (da :: rest) body) s = run sessEv h (body da) s))
  /\ (forall rule err, head (inserts t) = Some (rule, err) ->
      exists folderUID, made t = [(folderUID, Ok rule)]).
Proof.
  intros body t.
  assert (Hbody :
    (forall rule, head (inserts t) = Some (rule, None) -> inserts t = [(rule, None)])
    /\ (forall rule e1, head (inserts t) = Some (rule, Some e1) ->
        exists err2,
          inserts t = [(rule, Some e1); (alertRule.suffixed rule, err2)]
          /\ (forall e2, err2 = Some e2 ->
              result sessEv h (body da) s = Fail e2
              /\ last t = Some (EvInsertRule (alertRule.suffixed rule) (Some e2))
              /\ versionInserts t = []))
    /\ (forall rule err, head (inserts t) = Some (rule, err) ->
        exists folderUID, made t = [(folderUID, Ok rule)])).
  { subst t body. unfold trace, result. open_body.
    explore h; cbn; repeat split; intros; simplify_eq; eauto;
      try (eexists; split; [reflexivity |]; intros; simplify_eq; auto). }
  destruct Hbody as (Hfirst & Hretry & Hmade).
  split; [exact Hfirst |]. split; [| exact Hmade].
  intros rule e1 Hhead. destruct (Hretry rule e1 Hhead) as (err2 & Hins & Hfail).
  exists (alertRule.suffixed rule), err2.
  repeat (split; [reflexivity || exact Hins |]).
  intros e2 ->. destruct (Hfail e2 eq_refl) as (Hres & Hlast & Hver).
  repeat (split; [assumption |]).
  exact (loop_aborts sessEv h body da rest s e2 Hres).
Qed.

(** C7. In every iteration that ends without error, the trace ends with the
    successful insert of a rule immediately followed by the successful
    insert of the version made from that very rule, and it is the only
    version insert of the iteration.  In any iteration at most one version
    insert is attempted, and it comes right after a successful rule insert,
    for the version of that rule. *)
Theorem one_version_per_rule {helpers : Helpers} {St : Type}
    (h : forall o : SessOp, St -> sessResp o * St)
    (dsIDMap dashIDMap : gmap (Z * Z) string) (da : dashAlert.t) (s : St) :
  let t := trace sessEv h (migrateAlert dsIDMap dashIDMap da) s in
  (result sessEv h (migrateAlert dsIDMap dashIDMap da) s = Ok tt ->
   exists pre rule,
     t = pre ++ [EvInsertRule rule None; EvInsertVersion (makeVersion rule) None]
     /\ versionInserts pre = []
     /\ (forall r, ~ In (r, None) (inserts pre))
     /\ versionInserts t = [(makeVersion rule, None)])
  /\ (forall v err, In (v, err) (versionInserts t) ->
      versionInserts t = [(v, err)]
      /\ exists pre rule,
           t = pre ++ [EvInsertRule rule None; EvInsertVersion v err]
           /\ v = makeVersion rule).
Proof.
  intros t. subst t. unfold trace, result. open_body.
  explore h; cbn; (split; [intros; simplify_eq | intros v err Hin]);
    try (destruct Hin as [Hin | []]; simplify_eq; split; [reflexivity |]);
    try contradiction;
    solve [ front; eexists; (split; [reflexivity |]); cbn;
              repeat split; try reflexivity;
              intros r Hr; repeat (destruct Hr as [Hr | Hr]; [discriminate |]);
              exact Hr ].
Qed.

(** C9. In every iteration, under any behaviour of the session: once the
    dashboard of the alert is found and its [FolderId] is positive, the
    next call of the iteration is the lookup of the row with that id.  When
    the lookup fails, finds no row, or finds a row that is not a folder,
    nothing else is called, the iteration ends with a [MigrationError] that
    carries the id of the alert, and the loop stops there. *)
Theorem parent_folder_validated {helpers : Helpers} {St : Type}
    (h : forall o : SessOp, St -> sessResp o * St)
    (dsIDMap dashIDMap : gmap (Z * Z) string)
    (da : dashAlert.t) (rest : list dashAlert.t) (s : St)
    (args : list arg) (dash : dashboard.t) (t' : list SessEvent) :
  let body := migrateAlert dsIDMap dashIDMap in
  trace sessEv h (body da) s
    = EvGet "org_id=? AND uid=?" args (Ok (Some dash)) :: t' ->
  0 < dashboard.FolderId dash ->
  exists x t'',
    t' = EvGet "id=?" [AInt (dashboard.FolderId dash)] x :: t''
    /\ ((x = Ok None \/ (exists f, x = Ok (Some f) /\ dashboard.IsFolder f = false)
         \/ exists e, x = Fail e) ->
        t'' = []
        /\ (exists cause,
              result sessEv h (body da) s = Fail (MigrationError (dashAlert.Id da) cause))
        /\ run sessEv h (forRange (da :: rest) body) s = run sessEv h (body da) s).
Proof.
  intros body Ht Hpos.
  assert (Hbody : exists x t'',
    t' = EvGet "id=?" [AInt (dashboard.FolderId dash)] x :: t''
    /\ ((x = Ok None \/ (exists f, x = Ok (Some f) /\ dashboard.IsFolder f = false)
         \/ exists e, x = Fail e) ->
        t'' = []
        /\ (exists cause,
              result sessEv h (body da) s = Fail (MigrationError (dashAlert.Id da) cause)))).
  { revert Ht. subst body. unfold trace, result. open_body.
    explore h; cbn; intros Ht; simplify_eq; try lia;
      (eexists; eexists; split; [reflexivity |]);
      intros [Hx | [(f & Hx & Hf) | (e' & Hx)]]; simplify_eq; try congruence;
      (split; [reflexivity |]); eexists; reflexivity. }
  destruct Hbody as (x & t'' & Ht' & Hinv).
  exists x, t''. split; [exact Ht' |].
  intros Hx. destruct (Hinv Hx) as (Hnil & cause & Hres).
  split; [exact Hnil |]. split; [exists cause; exact Hres |].
  exact (loop_aborts sessEv h body da rest s _ Hres).
Qed.

(** ** The forward migration: whole runs *)

Section ExecFacts.
Context {helpers : Helpers} {St : Type}.
Variable h : forall o : SessOp, St -> sessResp o * St.

(** A property of events that holds for the three bulk reads and along
    every iteration holds along [Exec]. *)
Lemma Exec_trace_Forall (P : SessEvent -> Prop) :
  (forall r, P (EvSlurpDashAlerts r)) ->
  (forall r, P (EvSlurpDSIDs r)) ->
  (forall r, P (EvSlurpDashUIDs r)) ->
  (forall ds dm da s, Forall P (trace sessEv h (migrateAlert ds dm da) s)) ->
  forall s, Forall P (trace sessEv h Exec s).
Proof.
  intros H1 H2 H3 Hbody s. unfold trace, Exec, try, sess, call.
  cbn [run bind].
  destruct (h slurpDashAlerts s) as [[alerts | e] s1]; cbn [run bind];
    [| repeat constructor; apply H1].
  destruct (h slurpDSIDs s1) as [[ds | e] s2]; cbn [run bind];
    [| repeat constructor; [apply H1 | apply H2]].
  destruct (h slurpDashUIDs s2) as [[dm | e] s3]; cbn [run bind];
    [| repeat constructor; [apply H1 | apply H2 | apply H3]].
  pose proof (forRange_trace_Forall sessEv h (migrateAlert ds dm) P
                (Hbody ds dm) alerts s3) as Hloop.
  unfold trace in Hloop.
  destruct (run sessEv h (forRange alerts (migrateAlert ds dm)) s3) as [[r s4] t].
  repeat constructor; [apply H1 | apply H2 | apply H3 | exact Hloop].
Qed.

(** After the three bulk reads, [Exec] is the loop over the alerts read:
    every iteration of a run is [migrateAlert] on one alert, from the state
    the previous iterations left. *)
Lemma Exec_loop (s s1 s2 s3 : St) (alerts : list dashAlert.t)
    (ds dm : gmap (Z * Z) string) :
  h slurpDashAlerts s = (Ok alerts, s1) ->
  h slurpDSIDs s1 = (Ok ds, s2) ->
  h slurpDashUIDs s2 = (Ok dm, s3) ->
  run sessEv h Exec s =
  let '(r, s4, t) := run sessEv h (forRange alerts (migrateAlert ds dm)) s3 in
  (r, s4,
   EvSlurpDashAlerts (Ok alerts) :: EvSlurpDSIDs (Ok ds) :: EvSlurpDashUIDs (Ok dm) :: t).
Proof.
  intros H1 H2 H3. unfold Exec, try, sess, call. cbn [run bind].
  rewrite H1. cbn [run bind]. rewrite H2. cbn [run bind]. rewrite H3.
  cbn [run bind].
  destruct (run sessEv h (forRange alerts (migrateAlert ds dm)) s3) as [[r s4] t].
  reflexivity.
Qed.

(** The loop over a list split in two: the second part runs from the state
    the first part leaves, unless the first part failed. *)
Lemma forRange_app (body : dashAlert.t -> SessProg (Res unit))
    (before after : list dashAlert.t) (s : St) :
  run sessEv h (forRange (before ++ after) body) s =
  let '(r, s1, t1) := run sessEv h (forRange before body) s in
  match r with
  | Ok _ =>
      let '(r2, s2, t2) := run sessEv h (forRange after body) s1 in (r2, s2, t1 ++ t2)
  | Fail e => (Fail e, s1, t1)
  end.
Proof.
  revert s. induction before as [| x before IH]; intros s.
  - cbn. destruct (run sessEv h (forRange after body) s) as [[r s1] t]. reflexivity.
  - cbn [app forRange]. rewrite !run_bind.
    destruct (run sessEv h (body x) s) as [[[u | e] s1] t]; cbn [run].
    + rewrite IH.
      destruct (run sessEv h (forRange before body) s1) as [[[u' | e'] s2] t2].
      * destruct (run sessEv h (forRange after body) s2) as [[r3 s3] t3].
        rewrite app_assoc. reflexivity.
      * reflexivity.
    + reflexivity.
Qed.

Lemma made_Forall (t : list SessEvent) :
  Forall (fun e => match e with
                   | EvMakeAlertRule _ _ folderUID _ => folderUID <> ""
                   | _ => True
                   end) t ->
  forall folderUID r, In (folderUID, r) (made t) -> folderUID <> "".
Proof.
  induction 1 as [| e t He _ IH]; intros uid r Hin; [destruct Hin |].
  destruct e; cbn in Hin; try (apply (IH _ _ Hin)).
  destruct Hin as [[= <- <-] | Hin]; [exact He | apply (IH _ _ Hin)].
Qed.

Lemma inserts_Forall (t : list SessEvent) :
  Forall (fun e => match e with
                   | EvInsertRule rule _ => alertRule.NamespaceUID rule <> ""
                   | _ => True
                   end) t ->
  forall rule err, In (rule, err) (inserts t) -> alertRule.NamespaceUID rule <> "".
Proof.
  induction 1 as [| e t He _ IH]; intros rule err Hin; [destruct Hin |].
  destruct e; cbn in Hin; try (apply (IH _ _ Hin)).
  destruct Hin as [[= <- <-] | Hin]; [exact He | apply (IH _ _ Hin)].
Qed.

(** The blocks before [persist] neither make nor insert a rule. *)
Lemma blocks_insert_nothing (da : dashAlert.t) (dash parent : dashboard.t) (s : St) :
  let quiet t := made t = [] /\ inserts t = [] /\ versionInserts t = [] in
  quiet (trace sessEv h (getDashboard da) s)
  /\ quiet (trace sessEv h (getFolder da dash) s)
  /\ quiet (trace sessEv h (resolveFolder da dash parent) s).
Proof.
  unfold trace. open_body. repeat split; explore h; reflexivity.
Qed.
End ExecFacts.

Lemma quiet_app (t1 t2 : list SessEvent) :
  made (t1 ++ t2) = made t1 ++ made t2
  /\ inserts (t1 ++ t2) = inserts t1 ++ inserts t2
  /\ versionInserts (t1 ++ t2) = versionInserts t1 ++ versionInserts t2.
Proof.
  unfold made, inserts, versionInserts. repeat split; apply omap_app.
Qed.

(** C8. Under any behaviour of the session: in an iteration where the
    dashboard and its parent are read and folder resolution returns a folder
    whose uid is the empty string, the iteration ends with the
    [MigrationError] "empty folder identifier" that carries the id of the
    alert, without any call beyond those of the resolution: no rule is made
    or inserted, no version is inserted, and the loop stops there.  In a
    whole run of [Exec] every call of [makeAlertRule] is given a folder uid
    that is not empty; so every rule sent to the store has a folder uid
    that is not empty, as soon as [makeAlertRule] places the rule in the
    folder it is given. *)
Theorem empty_folder_uid_is_fatal {helpers : Helpers} {St : Type}
    (h : forall o : SessOp, St -> sessResp o * St) :
  (forall (dsIDMap dashIDMap : gmap (Z * Z) string) (da : dashAlert.t)
          (rest : list dashAlert.t) (newCond : condition)
          (dash parent folder : dashboard.t) (s s1 s2 s3 : St)
          (t1 t2 t3 : list SessEvent),
     let body := migrateAlert dsIDMap dashIDMap in
     let da' := dashAlert.setDashboardUID
                  (default "" (dashIDMap !! (dashAlert.OrgId da, dashAlert.DashboardId da)))
                  da in
     transConditions (dashAlert.ParsedSettings da) (dashAlert.OrgId da) dsIDMap
       = Ok newCond ->
     run sessEv h (getDashboard da') s = (Ok dash, s1, t1) ->
     run sessEv h (getFolder da' dash) s1 = (Ok parent, s2, t2) ->
     run sessEv h (resolveFolder da' dash parent) s2 = (Ok folder, s3, t3) ->
     dashboard.Uid folder = "" ->
     run sessEv h (body da) s
       = (Fail (MigrationError (dashAlert.Id da) (Errorf "empty folder identifier" [])),
          s3, t1 ++ t2 ++ t3)
     /\ made (t1 ++ t2 ++ t3) = []
     /\ inserts (t1 ++ t2 ++ t3) = []
     /\ versionInserts (t1 ++ t2 ++ t3) = []
     /\ run sessEv h (forRange (da :: rest) body) s = run sessEv h (body da) s)
  /\ (forall s folderUID r,
        In (folderUID, r) (made (trace sessEv h Exec s)) -> folderUID <> "")
  /\ ((forall c d f s r s',
         h (makeAlertRule c d f) s = (Ok r, s') -> alertRule.NamespaceUID r = f) ->
      forall s rule err,
        In (rule, err) (inserts (trace sessEv h Exec s)) ->
        alertRule.NamespaceUID rule <> "").
Proof.
  split; [| split].
  - intros ds dm da rest newCond dash parent folder s s1 s2 s3 t1 t2 t3 body da'
      Htrans Hdash Hparent Hfolder Huid.
    assert (Hrun : run sessEv h (body da) s
      = (Fail (MigrationError (dashAlert.Id da) (Errorf "empty folder identifier" [])),
         s3, t1 ++ t2 ++ t3)).
    { subst body. unfold migrateAlert. rewrite Htrans. fold da'.
      rewrite run_try, Hdash, run_try, Hparent, run_try, Hfolder.
      unfold persist. rewrite Huid. cbn. rewrite app_nil_r. reflexivity. }
    split; [exact Hrun |].
    destruct (blocks_insert_nothing h da' dash parent s) as ((M1 & I1 & V1) & _).
    destruct (blocks_insert_nothing h da' dash parent s1) as (_ & (M2 & I2 & V2) & _).
    destruct (blocks_insert_nothing h da' dash parent s2) as (_ & _ & (M3 & I3 & V3)).
    unfold trace in *. rewrite Hdash in M1, I1, V1. rewrite Hparent in M2, I2, V2.
    rewrite Hfolder in M3, I3, V3. cbn [snd] in *.
    destruct (quiet_app t1 (t2 ++ t3)) as (-> & -> & ->).
    destruct (quiet_app t2 t3) as (-> & -> & ->).
    rewrite M1, M2, M3, I1, I2, I3, V1, V2, V3.
    repeat (split; [reflexivity |]).
    apply (loop_aborts sessEv h body da rest s
             (MigrationError (dashAlert.Id da) (Errorf "empty folder identifier" []))).
    unfold result. rewrite Hrun. reflexivity.
  - intros s. apply made_Forall. apply Exec_trace_Forall; try (intros; exact I).
    intros ds dm da s0. unfold trace. open_body.
    explore h;
      repeat (constructor; [cbn; first [exact I | assumption] |]);
      constructor.
  - intros Hmake s. apply inserts_Forall. apply Exec_trace_Forall; try (intros; exact I).
    intros ds dm da s0. unfold trace. open_body.
    explore h;
      repeat (constructor;
              [cbn;
               first [ exact I
                     | match goal with
                       | H : h (makeAlertRule _ _ _) _ = (Ok _, _) |- _ =>
                           rewrite (Hmake _ _ _ _ _ _ H); assumption
                       end ] |]);
      constructor.
Qed.

(** ** The general folder on the in-memory store *)

Section SendsFacts.
Context {Op : Type} {resp : Op -> Type}.
Variable Q : Op -> Prop.

Lemma sends_bind {A B} (p : Prog Op resp A) (f : A -> Prog Op resp B) :
  sends Q p -> (forall a, sends Q (f a)) -> sends Q (bind p f).
Proof.
  intros Hp Hf. induction p as [a | o k IH]; cbn in *; [apply Hf |].
  destruct Hp as [Ho Hk]. split; [exact Ho |]. intros x. apply IH, Hk.
Qed.

Lemma sends_try {A B} (p : Prog Op resp (Res A)) (wrap : error -> error)
    (f : A -> Prog Op resp (Res B)) :
  sends Q p -> (forall a, sends Q (f a)) -> sends Q (try p wrap f).
Proof.
  intros Hp Hf. unfold try. apply sends_bind; [exact Hp |].
  intros [a | e]; [apply Hf | exact I].
Qed.

Lemma sends_forRange {A} (xs : list A) (body : A -> Prog Op resp (Res unit)) :
  (forall x, sends Q (body x)) -> sends Q (forRange xs body).
Proof.
  intros Hbody. induction xs as [| x rest IH]; cbn [forRange]; [exact I |].
  apply sends_bind; [apply Hbody |]. intros [u | e]; [exact IH | exact I].
Qed.

(** A property of the state kept by every operation that satisfies [Q]
    is kept by every program that sends such operations only. *)
Lemma run_invariant_sends {St Event : Type} (ev : forall o : Op, resp o -> Event)
    (h : forall o : Op, St -> resp o * St) (I : St -> Prop) :
  (forall o s, Q o -> I s -> I (h o s).2) ->
  forall {R} (p : Prog Op resp R) s, sends Q p -> I s -> I (final ev h p s).
Proof.
  intros Hstep R p. unfold final.
  induction p as [r | o k IH]; intros s Hp Hs; cbn in *; [exact Hs |].
  destruct Hp as [Ho Hk]. specialize (Hstep o s Ho Hs).
  destruct (h o s) as [x s1]. cbn in Hstep.
  specialize (IH x s1 (Hk x) Hstep).
  destruct (run ev h (k x) s1) as [[r s2] t]. exact IH.
Qed.
End SendsFacts.

Lemma Exec_sends_forwardOp {helpers : Helpers} : sends forwardOp Exec.
Proof.
  unfold Exec, sess, call.
  repeat (apply sends_try; [cbn; split; [exact I | intros; exact I] | intros ?]).
  apply sends_forRange. intros da. unfold migrateAlert.
  destruct (transConditions _ _ _); [| exact I].
  open_body.
  repeat first
    [ exact I
    | progress cbn [sends bind forwardOp]
    | split
    | match goal with
      | |- DASHBOARD_FOLDER _ <> GENERAL_FOLDER => discriminate
      | |- sends _ ?p =>
          match p with
          | context [match ?x with _ => _ end] => is_var x; destruct x
          | context [if ?b then _ else _] => destruct b
          end
      end
    | intros ? ].
Qed.

Lemma find_none_filter {A} (f : A -> bool) (l : list A) :
  List.find f l = None -> List.filter f l = [].
Proof.
  induction l as [| x l IH]; cbn; [reflexivity |].
  destruct (f x); [discriminate | exact IH].
Qed.

Lemma generalFolders_created (orgId org : Z) (title : string) (db : Store.DB) :
  generalFolders org (Store.createFolder orgId title db).2
  = generalFolders org db
    ++ (if (orgId =? org) && String.eqb title GENERAL_FOLDER
        then match (Store.createFolder orgId title db).1 with
             | Ok folder => [folder]
             | Fail _ => []
             end
        else []).
Proof.
  unfold generalFolders. cbn -[GENERAL_FOLDER String.eqb].
  rewrite List.filter_app. f_equal.
  cbn -[GENERAL_FOLDER String.eqb]. unfold Store.isGeneralFolder.
  cbn -[GENERAL_FOLDER String.eqb].
  destruct (orgId =? org); cbn -[GENERAL_FOLDER String.eqb]; [| reflexivity].
  destruct (String.eqb title GENERAL_FOLDER); reflexivity.
Qed.

(** Every operation of the forward migration keeps at most one general
    folder per organisation. *)
Lemma storeHandler_keeps_general (o : SessOp) (db : Store.DB) :
  forwardOp o ->
  (forall org, (length (generalFolders org db) <= 1)%nat) ->
  forall org, (length (generalFolders org (storeHandler o db).2) <= 1)%nat.
Proof.
  intros Ho Hdb.
  assert (Hperform : forall db1,
            Store.dashboard db1 = Store.dashboard db ->
            forall org, (length (generalFolders org (perform o db1).2) <= 1)%nat).
  { intros db1 Hsame.
    assert (Hdb1 : forall org, generalFolders org db1 = generalFolders org db)
      by (intros org; unfold generalFolders; rewrite Hsame; reflexivity).
    intros org. specialize (Hdb org). rewrite <- Hdb1 in Hdb.
    destruct o; cbn [perform forwardOp snd] in *; try exact Hdb; try contradiction.
    - rewrite generalFolders_created.
      destruct (String.eqb_spec title GENERAL_FOLDER) as [E | _]; [contradiction |].
      rewrite andb_false_r, app_nil_r. exact Hdb.
    - unfold Store.getOrCreateGeneralFolder.
      destruct (find (Store.isGeneralFolder orgId) (Store.dashboard db1)) as [f |] eqn:Hfind;
        [exact Hdb |].
      rewrite generalFolders_created.
      destruct (Z.eqb_spec orgId org) as [-> | Hne];
        [| cbn [andb]; rewrite app_nil_r; exact Hdb].
      unfold generalFolders at 1. rewrite (find_none_filter _ _ Hfind).
      destruct (String.eqb GENERAL_FOLDER GENERAL_FOLDER); cbn; lia.
    - unfold Store.insert_rule.
      destruct (existsb _ _); exact Hdb. }
  unfold storeHandler. destruct (Store.faults db) as [| [e |] rest]; intros org.
  - apply Hperform. reflexivity.
  - cbn [snd]. exact (Hdb org).
  - apply Hperform. reflexivity.
Qed.

(** An event that is not in a concrete trace. *)
Ltac not_in_trace :=
  let H := fresh in
  intros H; cbn in H;
  repeat (destruct H as [H | H]; [discriminate |]); exact H.

(** C1. In every iteration, under any behaviour of the session, once the
    dashboard of the alert is read: (1) with [HasAcl] set, the general
    folder is never asked for, and a rule is made only after a folder was
    created under the title "Migrated ..." in the organisation of the
    dashboard, the ACL of the dashboard was read and exactly the entries
    read were set on the created folder; the rule is given the uid of that
    folder; and once the parent, if any, is validated, a folder is created
    under that title; when it is created, the ACL of the dashboard is
    read; when it is read, the entries read are set on the created folder;
    when they are set and the folder has a uid, the rule is made with the
    uid of the created folder; (2) without [HasAcl] and with a positive
    [FolderId], no folder is created and no ACL is read or set, the parent
    row is looked up, and a parent that is a folder with a uid is the
    folder the rule is made with; (3) otherwise the only resolution call
    is [getOrCreateGeneralFolder] for the organisation of the dashboard, no
    ACL is read or set, and the rule is made with the uid of the folder it
    returned.  In each case the rule is made, with the uid of that folder
    and no other, whenever the folder has a uid.  On the in-memory store a
    run of [Exec] keeps at most one general folder per organisation. *)
Theorem folder_precedence {helpers : Helpers} {St : Type}
    (h : forall o : SessOp, St -> sessResp o * St) :
  (forall (dsIDMap dashIDMap : gmap (Z * Z) string) (da : dashAlert.t) (s : St)
          (args : list arg) (dash : dashboard.t) (t' : list SessEvent),
     let da' := dashAlert.setDashboardUID
                  (default "" (dashIDMap !! (dashAlert.OrgId da, dashAlert.DashboardId da)))
                  da in
     let t := trace sessEv h (migrateAlert dsIDMap dashIDMap da) s in
     let validated :=
       dashboard.FolderId dash <= 0
       \/ exists parent t'',
            t' = EvGet "id=?" [AInt (dashboard.FolderId dash)] (Ok (Some parent)) :: t''
            /\ dashboard.IsFolder parent = true in
     t = EvGet "org_id=? AND uid=?" args (Ok (Some dash)) :: t' ->
     (dashboard.HasAcl dash = true ->
        (forall org x, ~ In (EvGetOrCreateGeneralFolder org x) t)
        /\ (forall uid r, In (uid, r) (made t) ->
            exists folder perms,
              resolution t =
                [EvCreateFolder (dashboard.OrgId dash)
                   (DASHBOARD_FOLDER (getMigrationString da')) (Ok folder);
                 EvGetACL (dashboard.OrgId dash) (dashboard.Id dash) (Ok perms);
                 EvSetACL (dashboard.OrgId folder) (dashboard.Id folder) perms None]
              /\ uid = dashboard.Uid folder)
        /\ (validated ->
            exists x,
              head (resolution t)
              = Some (EvCreateFolder (dashboard.OrgId dash)
                        (DASHBOARD_FOLDER (getMigrationString da')) x)
              /\ forall folder, x = Ok folder ->
                 exists y,
                   resolution t !! 1%nat
                   = Some (EvGetACL (dashboard.OrgId dash) (dashboard.Id dash) y)
                   /\ forall perms, y = Ok perms ->
                      exists z,
                        resolution t =
                          [EvCreateFolder (dashboard.OrgId dash)
                             (DASHBOARD_FOLDER (getMigrationString da')) (Ok folder);
                           EvGetACL (dashboard.OrgId dash) (dashboard.Id dash) (Ok perms);
                           EvSetACL (dashboard.OrgId folder) (dashboard.Id folder) perms z]
                        /\ (z = None -> dashboard.Uid folder <> "" ->
                            exists r, made t = [(dashboard.Uid folder, r)])))
     /\ (dashboard.HasAcl dash = false -> 0 < dashboard.FolderId dash ->
         resolution t = []
         /\ (forall uid r, In (uid, r) (made t) ->
             exists parent t'',
               t' = EvGet "id=?" [AInt (dashboard.FolderId dash)] (Ok (Some parent)) :: t''
               /\ dashboard.IsFolder parent = true
               /\ uid = dashboard.Uid parent)
         /\ (exists x t'',
               t' = EvGet "id=?" [AInt (dashboard.FolderId dash)] x :: t''
               /\ forall parent, x = Ok (Some parent) ->
                  dashboard.IsFolder parent = true -> dashboard.Uid parent <> "" ->
                  exists r, made t = [(dashboard.Uid parent, r)]))
     /\ (dashboard.HasAcl dash = false -> dashboard.FolderId dash <= 0 ->
         (exists x, resolution t = [EvGetOrCreateGeneralFolder (dashboard.OrgId dash) x])
         /\ (forall uid r, In (uid, r) (made t) ->
             exists folder,
               resolution t =
                 [EvGetOrCreateGeneralFolder (dashboard.OrgId dash) (Ok folder)]
               /\ uid = dashboard.Uid folder)
         /\ (forall folder,
               resolution t = [EvGetOrCreateGeneralFolder (dashboard.OrgId dash) (Ok folder)] ->
               dashboard.Uid folder <> "" ->
               exists r, made t = [(dashboard.Uid folder, r)])))
  /\ (forall db : Store.DB,
        (forall org, (length (generalFolders org db) <= 1)%nat) ->
        forall org,
          (length (generalFolders org (final sessEv storeHandler Exec db)) <= 1)%nat).
Proof.
  split.
  - intros ds dm da s args dash t' da' t validated. subst t da' validated.
    unfold trace. open_body.
    explore h; cbn -[DASHBOARD_FOLDER]; intros Ht; simplify_eq;
      (split; [intros Hacl | split; [intros Hacl Hpos | intros Hacl Hle]]);
      try congruence; try lia;
      (split;
       [ first [ intros org x; not_in_trace | reflexivity | eexists; reflexivity ]
       | split;
         [ intros uid r Hin; cbn in Hin;
           first [ contradiction
                 | destruct Hin as [Hin | []]; simplify_eq;
                   repeat eexists; first [reflexivity | assumption] ]
         | ]]).
    all: repeat first
           [ progress intros
           | match goal with
             | H : _ \/ _ |- _ => destruct H
             | H : exists _, _ |- _ => destruct H
             | H : _ /\ _ |- _ => destruct H
             end
           | progress simplify_eq
           | lia | congruence | contradiction
           | eexists
           | split
           | reflexivity ].
  - intros db Hdb.
    apply (run_invariant_sends forwardOp sessEv storeHandler
             (fun db => forall org, (length (generalFolders org db) <= 1)%nat)).
    + intros o s Ho Hs. apply storeHandler_keeps_general; assumption.
    + apply Exec_sends_forwardOp.
    + exact Hdb.
Qed.

(** Where the error of a failed iteration comes from, under any behaviour
    of the session: it is a [MigrationError] that carries the id of the
    alert and holds its cause, or it is, as it was returned, the error
    of [transConditions], of [makeAlertRule], of the second rule insert or
    of the version insert. *)
Lemma failure_origins {helpers : Helpers} {St : Type}
    (h : forall o : SessOp, St -> sessResp o * St)
    (dsIDMap dashIDMap : gmap (Z * Z) string) (da : dashAlert.t) (s : St) (e : error) :
  let t := trace sessEv h (migrateAlert dsIDMap dashIDMap da) s in
  result sessEv h (migrateAlert dsIDMap dashIDMap da) s = Fail e ->
  (exists cause, e = MigrationError (dashAlert.Id da) cause)
  \/ (t = [] /\
      transConditions (dashAlert.ParsedSettings da) (dashAlert.OrgId da) dsIDMap = Fail e)
  \/ (exists c d f, last t = Some (EvMakeAlertRule c d f (Fail e)))
  \/ (exists rule, last t = Some (EvInsertRule (alertRule.suffixed rule) (Some e)))
  \/ (exists v, last t = Some (EvInsertVersion v (Some e))).
Proof.
  intros t. subst t. unfold trace, result. open_body.
  explore h; cbn; intros [=]; subst;
    first [ left; eexists; reflexivity
          | right; left; split; reflexivity
          | right; right; left; do 3 eexists; reflexivity
          | right; right; right; left; eexists; reflexivity
          | right; right; right; right; eexists; reflexivity ].
Qed.

(** C2, evaluated on the code.  An error of [transConditions] is the result
    of the iteration and of the loop as it is, with no [MigrationError]
    around it and no call to the session: whatever [transConditions]
    returns for a datasource id without uid reaches the caller bare. *)
Theorem translation_error_returned_bare {helpers : Helpers} {St : Type}
    (h : forall o : SessOp, St -> sessResp o * St)
    (dsIDMap dashIDMap : gmap (Z * Z) string)
    (da : dashAlert.t) (rest : list dashAlert.t) (s : St) (e : error) :
  transConditions (dashAlert.ParsedSettings da) (dashAlert.OrgId da) dsIDMap = Fail e ->
  run sessEv h (forRange (da :: rest) (migrateAlert dsIDMap dashIDMap)) s
    = (Fail e, s, []).
Proof.
  intros Htrans. apply forRange_fails. unfold migrateAlert. rewrite Htrans.
  reflexivity.
Qed.

(** The alert that refers to datasource 7, absent from the datasource map:
    the loop returns the error of the translation itself, which is not a
    [MigrationError] and names no alert. *)
Lemma translation_error_returned_bare_witness :
  run sessEv storeHandler
    (forRange [Sample.lostAlert; Sample.teamAlert]
       (migrateAlert Sample.dsIDMap Sample.dashIDMap)) (Sample.db [])
    = (Fail (Store.UnresolvedDatasourceError 7), Sample.db [], [])
  /\ isMigrationError (Store.UnresolvedDatasourceError 7) = false.
Proof.
  split; [| reflexivity].
  apply (translation_error_returned_bare storeHandler Sample.dsIDMap Sample.dashIDMap
           Sample.lostAlert [Sample.teamAlert] (Sample.db [])).
  vm_compute. reflexivity.
Defined.

(** The same through [Exec], after an alert that migrates: the run ends
    with the bare error; so does a run whose rule insert fails twice. *)
Example Exec_bare_errors :
  result sessEv storeHandler Exec
    (Sample.db [Sample.rootAlert; Sample.lostAlert; Sample.teamAlert])
    = Fail (Store.UnresolvedDatasourceError 7)
  /\ result sessEv storeHandler Exec (Sample.clashDB [Sample.rootAlert])
     = Fail Store.UniqueConstraintError
  /\ isMigrationError Store.UniqueConstraintError = false.
Proof. vm_compute. repeat split. Qed.

(** ** The in-memory store at work *)

(** Two alerts of the same name on root dashboards, one in a folder, one on
    a dashboard with an ACL of its own: four rules, the second retried under
    a title extended by its uid, one version per rule, one general folder,
    one folder created for the ACL and granted the entries of the dashboard
    and of its parent. *)
Example Exec_on_sample :
  let db' := final sessEv storeHandler Exec
               (Sample.db [Sample.rootAlert; Sample.rootAlert'; Sample.teamAlert;
                           Sample.aclAlert]) in
  result sessEv storeHandler Exec
    (Sample.db [Sample.rootAlert; Sample.rootAlert'; Sample.teamAlert; Sample.aclAlert])
    = Ok tt
  /\ List.map (fun r => (alertRule.Title r, alertRule.NamespaceUID r)) (Store.alert_rule db')
     = [("cpu", "folder-100"); ("cpu rule-102", "folder-100"); ("mem", "fold5");
        ("disk", "folder-104")]
  /\ List.map alertRuleVersion.Title (Store.alert_rule_version db')
     = ["cpu"; "cpu rule-102"; "mem"; "disk"]
  /\ List.map dashboard.Title (generalFolders 1 db') = [GENERAL_FOLDER]
  /\ List.map (fun a => (dashboardACL.DashboardId a, dashboardACL.Principal a))
       (Store.dashboard_acl db')
     = [(12, "team:ops"); (5, "role:Viewer"); (104, "team:ops"); (104, "role:Viewer")].
Proof. vm_compute. repeat split. Qed.

(** Forward migration, then removal: the alerting tables are empty and the
    dashboards and grants that were there before are back, unchanged. *)
Example Exec_then_rmExec :
  let before := Sample.db [Sample.rootAlert; Sample.teamAlert; Sample.aclAlert] in
  let after := final sessEv storeHandler rmExec (final sessEv storeHandler Exec before) in
  Store.dashboard after = Store.dashboard before
  /\ Store.dashboard_acl after = Store.dashboard_acl before
  /\ Store.alert_rule after = [] /\ Store.alert_rule_version after = []
  /\ Store.alert_configuration after = [] /\ Store.alert_instance after = [].
Proof. vm_compute. repeat split. Qed.

(** Registration on the in-memory migrator: the first call registers the
    forward migration; once the framework has run it and logged it, a
    second call registers nothing; with the toggle then disabled, a third
    call registers the removal. *)
Example AddMigration_twice :
  let first := final mgEv Migrator.handler AddMigration Sample.freshMigrator in
  let logged := Migrator.completed first in
  Migrator.migrations first = [(migTitle, migration)]
  /\ registered (trace mgEv Migrator.handler AddMigration logged) = []
  /\ registered (trace mgEv Migrator.handler AddMigration
                   {| Migrator.environ := Migrator.environ logged;
                      Migrator.migration_log := Migrator.migration_log logged;
                      Migrator.log_error := None;
                      Migrator.ngAlertEnabled := false;
                      Migrator.migrations := []; Migrator.logger := [] |})
     = [(rmMigTitle, rmMigration)].
Proof. vm_compute. repeat split. Qed.

(** ** The properties on the sample rows *)

(** On the store [makeAlertRule] places the rule in the folder it is
    given. *)
Lemma storeHandler_makeAlertRule (c : condition) (d : dashAlert.t) (f : string)
    (db db' : Store.DB) (r : alertRule.t) :
  storeHandler (makeAlertRule c d f) db = (Ok r, db') -> alertRule.NamespaceUID r = f.
Proof.
  unfold storeHandler.
  destruct (Store.faults db) as [| [e |] rest]; cbn; intros [= <- _]; reflexivity.
Qed.

Lemma no_general_folder (db : Store.DB) :
  forallb (fun d => negb (String.eqb (dashboard.Title d) GENERAL_FOLDER))
    (Store.dashboard db) = true ->
  forall org, generalFolders org db = [].
Proof.
  unfold generalFolders. intros Hall org.
  induction (Store.dashboard db) as [| d l IH]; [reflexivity |].
  cbn [forallb] in Hall. apply andb_true_iff in Hall. destruct Hall as [Hd Hl].
  cbn [List.filter]. unfold Store.isGeneralFolder at 1.
  apply negb_true_iff in Hd. rewrite Hd, andb_false_r. cbn [andb].
  apply IH, Hl.
Qed.

(** C1 on the sample, one alert for each case: the alert on the dashboard
    with its own ACL gets the folder created for it, with the grants read
    from the dashboard; the alert on the dashboard in the team folder gets
    that folder, and nothing is created; the alert on the root dashboard
    gets the general folder; a run over two root alerts leaves one general
    folder. *)
Lemma folder_precedence_witness :
  let body := migrateAlert Sample.dsIDMap Sample.dashIDMap in
  let tAcl := trace sessEv storeHandler (body Sample.aclAlert) (Sample.db []) in
  let tTeam := trace sessEv storeHandler (body Sample.teamAlert) (Sample.db []) in
  let tRoot := trace sessEv storeHandler (body Sample.rootAlert) (Sample.db []) in
  (exists folder perms r,
     resolution tAcl =
       [EvCreateFolder 1 (DASHBOARD_FOLDER "d12/2/3") (Ok folder);
        EvGetACL 1 12 (Ok perms);
        EvSetACL (dashboard.OrgId folder) (dashboard.Id folder) perms None]
     /\ made tAcl = [(dashboard.Uid folder, r)])
  /\ (resolution tTeam = [] /\ exists r, made tTeam = [("fold5", r)])
  /\ (exists folder r,
        resolution tRoot = [EvGetOrCreateGeneralFolder 1 (Ok folder)]
        /\ made tRoot = [(dashboard.Uid folder, r)])
  /\ (length (generalFolders 1
        (final sessEv storeHandler Exec
           (Sample.db [Sample.rootAlert; Sample.rootAlert']))) <= 1)%nat.
Proof.
  intros body tAcl tTeam tRoot.
  destruct (folder_precedence storeHandler) as [Hbody Hstore].
  split; [| split; [| split]].
  - destruct (Hbody Sample.dsIDMap Sample.dashIDMap Sample.aclAlert (Sample.db [])
                [AInt 1; AStr "d12"] Sample.aclDash (tl tAcl))
      as (Hacl & _ & _); [vm_compute; reflexivity |].
    destruct (Hacl eq_refl) as (_ & _ & Hused).
    destruct Hused as (x & Hx & Hy).
    { right. exists Sample.teamFolder. eexists. split; [vm_compute; reflexivity | reflexivity]. }
    vm_compute in Hx. injection Hx as <-.
    destruct (Hy _ eq_refl) as (y & Hy1 & Hz). vm_compute in Hy1. injection Hy1 as <-.
    destruct (Hz _ eq_refl) as (z & Hres & Hmade).
    assert (Hnone : z = None).
    { vm_compute in Hres. injection Hres as <-. reflexivity. }
    subst z. destruct Hmade as [r Hr]; [reflexivity | vm_compute; discriminate |].
    do 2 eexists. exists r. split; [exact Hres | exact Hr].
  - destruct (Hbody Sample.dsIDMap Sample.dashIDMap Sample.teamAlert (Sample.db [])
                [AInt 1; AStr "d11"] Sample.teamDash (tl tTeam))
      as (_ & Hparent & _); [vm_compute; reflexivity |].
    destruct (Hparent eq_refl) as (Hres & _ & x & t'' & Ht' & Hused);
      [vm_compute; reflexivity |].
    split; [exact Hres |].
    vm_compute in Ht'. injection Ht' as <- _.
    apply (Hused Sample.teamFolder); [reflexivity | reflexivity | vm_compute; discriminate].
  - destruct (Hbody Sample.dsIDMap Sample.dashIDMap Sample.rootAlert (Sample.db [])
                [AInt 1; AStr "d10"] Sample.rootDash (tl tRoot))
      as (_ & _ & Hgeneral); [vm_compute; reflexivity |].
    destruct Hgeneral as ([x Hx] & _ & Hused); [reflexivity | vm_compute; discriminate |].
    destruct x as [folder | e]; [| vm_compute in Hx; discriminate Hx].
    exists folder. destruct (Hused folder Hx) as [r Hr]; [| exists r; split; [exact Hx | exact Hr]].
    vm_compute in Hx. injection Hx as <-. vm_compute. discriminate.
  - apply Hstore. intros org.
    rewrite (no_general_folder (Sample.db [Sample.rootAlert; Sample.rootAlert']))
      by (vm_compute; reflexivity).
    apply Nat.le_0_l.
Defined.

(** C3 on the sample: after the first alert named "cpu" is migrated, the
    rule of the second collides, and is inserted again as "cpu rule-102". *)
Lemma rule_insert_retried_once_witness :
  let body := migrateAlert Sample.dsIDMap Sample.dashIDMap in
  let s := final sessEv storeHandler (body Sample.rootAlert) (Sample.db []) in
  exists rule' err2,
    inserts (trace sessEv storeHandler (body Sample.rootAlert') s)
      = [(Sample.cpuRule, Some Store.UniqueConstraintError); (rule', err2)]
    /\ alertRule.Title rule' = "cpu rule-102"
    /\ alertRule.RuleGroup rule' = "cpu rule-102".
Proof.
  intros body s.
  destruct (rule_insert_retried_once storeHandler Sample.dsIDMap Sample.dashIDMap
              Sample.rootAlert' [] s) as (_ & Hretry & _).
  destruct (Hretry Sample.cpuRule Store.UniqueConstraintError)
    as (rule' & err2 & Hins & Htitle & Hgroup & _); [vm_compute; reflexivity |].
  exists rule', err2. rewrite Htitle, Hgroup. repeat split. exact Hins.
Defined.

(** C7 on the sample: the root alert migrates, and its trace ends with the
    insert of its rule followed by the insert of the version of that rule. *)
Lemma one_version_per_rule_witness :
  exists pre rule,
    trace sessEv storeHandler
      (migrateAlert Sample.dsIDMap Sample.dashIDMap Sample.rootAlert) (Sample.db [])
      = pre ++ [EvInsertRule rule None; EvInsertVersion (makeVersion rule) None]
    /\ versionInserts pre = [].
Proof.
  destruct (one_version_per_rule storeHandler Sample.dsIDMap Sample.dashIDMap
              Sample.rootAlert (Sample.db [])) as [Hok _].
  destruct Hok as (pre & rule & Ht & Hpre & _); [vm_compute; reflexivity |].
  exists pre, rule. split; assumption.
Defined.

(** C8 on the sample: the dashboard under the folder without uid; and the
    rules a whole run sends to the store. *)
Lemma empty_folder_uid_is_fatal_witness :
  let body := migrateAlert Sample.dsIDMap Sample.dashIDMap in
  result sessEv storeHandler (body Sample.namelessAlert) (Sample.db [])
    = Fail (MigrationError 6 (Errorf "empty folder identifier" []))
  /\ run sessEv storeHandler
       (forRange [Sample.namelessAlert; Sample.teamAlert] body) (Sample.db [])
     = run sessEv storeHandler (body Sample.namelessAlert) (Sample.db [])
  /\ (forall rule err,
        In (rule, err)
          (inserts (trace sessEv storeHandler Exec
                      (Sample.db [Sample.rootAlert; Sample.teamAlert]))) ->
        alertRule.NamespaceUID rule <> "").
Proof.
  intros body.
  destruct (empty_folder_uid_is_fatal storeHandler) as (Hempty & _ & Hrules).
  edestruct (Hempty Sample.dsIDMap Sample.dashIDMap Sample.namelessAlert
               [Sample.teamAlert] Sample.promCond Sample.namelessDash
               Sample.namelessFolder Sample.namelessFolder
               (Sample.db []) (Sample.db []) (Sample.db []) (Sample.db []))
    as (Hrun & _ & _ & _ & Hloop);
    [vm_compute; reflexivity | vm_compute; reflexivity | vm_compute; reflexivity
    | vm_compute; reflexivity | reflexivity |].
  split; [unfold result, body; rewrite Hrun; reflexivity |].
  split; [exact Hloop |].
  apply Hrules. intros c d f s r s'. apply storeHandler_makeAlertRule.
Defined.

(** C9 on the sample: the dashboard whose parent does not exist. *)
Lemma parent_folder_validated_witness :
  let body := migrateAlert Sample.dsIDMap Sample.dashIDMap in
  exists x t'',
    [EvGet "id=?" [AInt 99] (Ok None)] = EvGet "id=?" [AInt 99] x :: t''
    /\ ((x = Ok None \/ (exists f, x = Ok (Some f) /\ dashboard.IsFolder f = false)
         \/ exists e, x = Fail e) ->
        t'' = []
        /\ (exists cause,
              result sessEv storeHandler (body Sample.orphanAlert) (Sample.db [])
              = Fail (MigrationError 4 cause))
        /\ run sessEv storeHandler
             (forRange [Sample.orphanAlert; Sample.teamAlert] body) (Sample.db [])
           = run sessEv storeHandler (body Sample.orphanAlert) (Sample.db [])).
Proof.
  intros body.
  apply (parent_folder_validated storeHandler Sample.dsIDMap Sample.dashIDMap
           Sample.orphanAlert [Sample.teamAlert] (Sample.db [])
           [AInt 1; AStr "d13"] Sample.orphanDash
           [EvGet "id=?" [AInt 99] (Ok None)]);
    [vm_compute; reflexivity | reflexivity].
Defined.

(** C5 on the sample: the fresh migrator meets the forward trigger, so the
    forward migration is registered. *)
Lemma AddMigration_registers_witness :
  In (migTitle, migration)
    (registered (trace mgEv Migrator.handler AddMigration Sample.freshMigrator)).
Proof.
  pose proof (AddMigration_registers Migrator.handler Sample.freshMigrator) as H.
  cbv beta iota zeta delta [Migrator.handler fst snd] in H.
  destruct H as [[_ Hreg] _]. apply Hreg.
  split; [vm_compute; reflexivity |]. split; [reflexivity |].
  exists ∅. split; reflexivity.
Defined.

(** C10 on the sample: without the variable, the only call is its read. *)
Lemma AddMigration_registers_nothing_otherwise_witness :
  let mg0 :=
    {| Migrator.environ := ∅; Migrator.migration_log := ∅;
       Migrator.log_error := None; Migrator.ngAlertEnabled := false;
       Migrator.migrations := []; Migrator.logger := [] |} in
  run mgEv Migrator.handler AddMigration mg0 = (Returned, mg0, [EvGetenv "UALERT_MIG" ""]).
Proof.
  intros mg0.
  pose proof (AddMigration_registers_nothing_otherwise Migrator.handler mg0) as H.
  cbv beta iota zeta delta [Migrator.handler fst snd] in H.
  destruct H as [Hoff _]. apply Hoff. vm_compute. discriminate.
Defined.

(** C4 on the sample: the six statements in the order of the code; and on
    a store that fails the second statement, that statement is the last
    one sent. *)
Lemma rmExec_order_witness :
  statements (trace sessEv storeHandler rmExec (Sample.db [])) = rmStatements
  /\ (let db := Store.with_faults [None; Some (Foreign "locked")] (Sample.db []) in
      last (trace sessEv storeHandler rmExec db)
        = Some (EvExec "delete from alert_rule_version" [] (Some (Foreign "locked")))
      /\ result sessEv storeHandler rmExec db = Fail (Foreign "locked")).
Proof.
  split.
  - destruct (rmExec_order storeHandler (Sample.db [])) as (_ & Hall & _).
    apply Hall. vm_compute. reflexivity.
  - intros db.
    destruct (rmExec_order storeHandler db) as (_ & _ & Hstop & _).
    apply Hstop. vm_compute. right. left. reflexivity.
Defined.

(** C6 on the sample: after a forward migration and its removal, the folder
    that was there before is still there. *)
Lemma rmExec_frame_witness :
  In Sample.teamFolder
    (Store.dashboard
       (final sessEv storeHandler rmExec
          (final sessEv storeHandler Exec (Sample.db [Sample.aclAlert])))).
Proof.
  destruct (rmExec_frame (final sessEv storeHandler Exec (Sample.db [Sample.aclAlert])))
    as (_ & _ & Hkept & _).
  apply Hkept; [vm_compute; auto | vm_compute; discriminate].
Defined.

(** * Further properties of the code *)

(** ** The bulk reads of [Exec] *)

(** X1. A bulk read that fails ends [Exec] at once: the error of the read
    is the result as it is, and no later read and no iteration takes
    place. *)
Theorem Exec_bulk_read_failure {helpers : Helpers} {St : Type}
    (h : forall o : SessOp, St -> sessResp o * St) (s : St) :
  let '(r1, s1) := h slurpDashAlerts s in
  let '(r2, s2) := h slurpDSIDs s1 in
  let '(r3, s3) := h slurpDashUIDs s2 in
  (forall e, r1 = Fail e ->
     run sessEv h Exec s = (Fail e, s1, [EvSlurpDashAlerts r1]))
  /\ (forall alerts e, r1 = Ok alerts -> r2 = Fail e ->
      run sessEv h Exec s = (Fail e, s2, [EvSlurpDashAlerts r1; EvSlurpDSIDs r2]))
  /\ (forall alerts ds e, r1 = Ok alerts -> r2 = Ok ds -> r3 = Fail e ->
      run sessEv h Exec s
        = (Fail e, s3, [EvSlurpDashAlerts r1; EvSlurpDSIDs r2; EvSlurpDashUIDs r3])).
Proof.
  unfold Exec, try, sess, call. cbn [run bind].
  destruct (h slurpDashAlerts s) as [[alerts | e1] s1]; cbn [run bind].
  2: { destruct (h slurpDSIDs s1) as [r2 s2], (h slurpDashUIDs s2) as [r3 s3].
       repeat split; intros; simplify_eq; reflexivity. }
  destruct (h slurpDSIDs s1) as [[ds | e2] s2]; cbn [run bind].
  2: { destruct (h slurpDashUIDs s2) as [r3 s3].
       repeat split; intros; simplify_eq; reflexivity. }
  destruct (h slurpDashUIDs s2) as [[dm | e3] s3]; cbn [run bind].
  - repeat split; intros; simplify_eq.
  - repeat split; intros; simplify_eq; reflexivity.
Qed.

(** The store whose second statement fails: the read of the datasources. *)
Lemma Exec_bulk_read_failure_witness :
  let db := Store.with_faults [None; Some (Foreign "connection lost")]
              (Sample.db [Sample.rootAlert]) in
  run sessEv storeHandler Exec db
  = (Fail (Foreign "connection lost"), Store.with_faults [] db,
     [EvSlurpDashAlerts (Ok [Sample.rootAlert]);
      EvSlurpDSIDs (Fail (Foreign "connection lost"))]).
Proof.
  intros db.
  pose proof (Exec_bulk_read_failure storeHandler db) as H.
  cbv beta iota zeta delta [storeHandler perform failWith Store.faults
    Store.with_faults db Sample.db Store.slurpDashAlerts Store.alert] in H.
  destruct H as (_ & H2 & _).
  apply (H2 [Sample.rootAlert] (Foreign "connection lost")); reflexivity.
Defined.

(** X2. In every run of [Exec] the bulk reads are the first calls, each
    made at most once and in the order alerts, datasources, dashboards;
    no iteration reads in bulk again.  When the alerts read are none, the
    three reads are the whole run and it ends without error. *)
Theorem Exec_reads_first_and_once {helpers : Helpers} {St : Type}
    (h : forall o : SessOp, St -> sessResp o * St) (s : St) :
  let t := trace sessEv h Exec s in
  (exists r1, take 1 t = [EvSlurpDashAlerts r1])
  /\ (forall e, nth_error t 1 = Some e -> exists r2, e = EvSlurpDSIDs r2)
  /\ (forall e, nth_error t 2 = Some e -> exists r3, e = EvSlurpDashUIDs r3)
  /\ Forall (fun e => isBulkRead e = false) (drop 3 t)
  /\ (forall ds dm,
        take 3 t = [EvSlurpDashAlerts (Ok []); EvSlurpDSIDs (Ok ds); EvSlurpDashUIDs (Ok dm)] ->
        drop 3 t = [] /\ result sessEv h Exec s = Ok tt).
Proof.
  assert (Hbody : forall ds dm da s0,
            Forall (fun e => isBulkRead e = false)
              (trace sessEv h (migrateAlert ds dm da) s0)).
  { intros ds dm da s0. unfold trace. open_body.
    explore h; repeat (constructor; [reflexivity |]); constructor. }
  unfold trace, result, Exec, try, sess, call. cbn [run bind].
  destruct (h slurpDashAlerts s) as [[alerts | e1] s1]; cbn [run bind].
  2: { cbn. repeat split; eauto; intros; try discriminate; constructor. }
  destruct (h slurpDSIDs s1) as [[ds | e2] s2]; cbn [run bind].
  2: { cbn. repeat split; eauto; intros; simplify_eq; eauto; constructor. }
  destruct (h slurpDashUIDs s2) as [[dm | e3] s3]; cbn [run bind].
  2: { cbn. repeat split; eauto; intros; simplify_eq; eauto; constructor. }
  pose proof (forRange_trace_Forall sessEv h (migrateAlert ds dm) _ (Hbody ds dm)
                alerts s3) as Hloop.
  unfold trace in Hloop.
  destruct alerts as [| da alerts].
  - cbn. repeat split; eauto; intros; simplify_eq; eauto; constructor.
  - destruct (run sessEv h (forRange (da :: alerts) (migrateAlert ds dm)) s3)
      as [[r s4] t]. cbn in *.
    repeat split; eauto; intros; simplify_eq; eauto.
Qed.

(** ** What each migration never does *)

(** X3. The body of [Exec] of the forward migration makes no call of
    [sess.Exec]: its own calls are the bulk reads, the row lookups, the
    helper methods and the inserts.  What the helper methods send through
    the session they hold is outside this statement.  The body of [Exec] of
    the removal migration makes calls of [sess.Exec] only: it calls no
    helper, looks up no row and inserts nothing. *)
Theorem migrations_keep_to_their_calls {helpers : Helpers} {St : Type}
    (h : forall o : SessOp, St -> sessResp o * St) (s : St) :
  statements (trace sessEv h Exec s) = []
  /\ Forall (fun e => exists sql args err, e = EvExec sql args err)
       (trace sessEv h rmExec s).
Proof.
  split.
  - assert (Hall : Forall (fun e => match e with EvExec _ _ _ => False | _ => True end)
                     (trace sessEv h Exec s)).
    { apply Exec_trace_Forall; try (intros; exact I).
      intros ds dm da s0. unfold trace. open_body.
      explore h; repeat (constructor; [exact I |]); constructor. }
    induction Hall as [| e t He _ IH]; [reflexivity |].
    destruct e; cbn; try exact IH. destruct He.
  - unfold trace, rmExec, execOrReturn, sess, call.
    repeat (cbn [run bind];
            lazymatch goal with
            | |- context [h ?o ?s0] =>
                let x := fresh "x" in
                let s' := fresh "s" in
                destruct (h o s0) as [[x |] s']
            end);
      cbn [run bind snd sessEv];
      repeat (constructor; [eauto |]); constructor.
Qed.

(** ** Failures inside an iteration *)

(** X4. In an iteration whose conditions translate, the first call looks
    the dashboard up by organisation and uid, the uid being the entry of
    the dashboard map or the empty string when the map has no entry.  When
    the lookup fails or finds no row, it is the only call of the iteration,
    the result is a [MigrationError] with the id of the alert, and the loop
    stops there.  The error of a failed lookup is what the field [Err] of
    the result unwraps to; the result itself, a [MigrationError] held by
    value, does not unwrap. *)
Theorem dashboard_lookup_fatal {helpers : Helpers} {St : Type}
    (h : forall o : SessOp, St -> sessResp o * St)
    (dsIDMap dashIDMap : gmap (Z * Z) string)
    (da : dashAlert.t) (rest : list dashAlert.t) (s : St) (newCond : condition) :
  let body := migrateAlert dsIDMap dashIDMap in
  let uid := default "" (dashIDMap !! (dashAlert.OrgId da, dashAlert.DashboardId da)) in
  let q := SessGet "org_id=? AND uid=?" [AInt (dashAlert.OrgId da); AStr uid] in
  transConditions (dashAlert.ParsedSettings da) (dashAlert.OrgId da) dsIDMap = Ok newCond ->
  (dashIDMap !! (dashAlert.OrgId da, dashAlert.DashboardId da) = None -> uid = "")
  /\ head (trace sessEv h (body da) s) = Some (sessEv q (h q s).1)
  /\ (forall e, result sessEv h (body da) s = Fail e ->
      (h q s).1 = Ok None \/ (exists err, (h q s).1 = Fail err) ->
      run sessEv h (forRange (da :: rest) body) s = (Fail e, (h q s).2, [sessEv q (h q s).1])
      /\ exists cause,
           e = MigrationError (dashAlert.Id da) cause
           /\ Unwrap e = None
           /\ forall err, (h q s).1 = Fail err -> Unwrap cause = Some err).
Proof.
  intros body uid q Htrans.
  split; [intros Hnone; subst uid; rewrite Hnone; reflexivity |].
  assert (Hbody :
    head (trace sessEv h (body da) s) = Some (sessEv q (h q s).1)
    /\ (forall e, result sessEv h (body da) s = Fail e ->
        (h q s).1 = Ok None \/ (exists err, (h q s).1 = Fail err) ->
        run sessEv h (body da) s = (Fail e, (h q s).2, [sessEv q (h q s).1])
        /\ exists cause,
             e = MigrationError (dashAlert.Id da) cause
             /\ Unwrap e = None
             /\ forall err, (h q s).1 = Fail err -> Unwrap cause = Some err)).
  { subst body q uid. unfold trace, result, migrateAlert. rewrite Htrans.
    open_body. cbn [run bind dashAlert.OrgId dashAlert.DashboardUID
                      dashAlert.setDashboardUID].
    destruct (h _ s) as [[[dash |] | err] s1] eqn:Hq; cbn [fst snd].
    - split.
      + explore h; reflexivity.
      + intros e _ [Hx | (err & Hx)]; discriminate.
    - cbn. split; [reflexivity |]. intros e [= <-] _.
      split; [reflexivity |]. eexists. split; [reflexivity |].
      split; [reflexivity |]. intros err [=].
    - cbn. split; [reflexivity |]. intros e [= <-] _.
      split; [reflexivity |]. eexists. split; [reflexivity |].
      split; [reflexivity |]. intros err' [= <-]. reflexivity. }
  destruct Hbody as [Hhead Hfail]. split; [exact Hhead |].
  intros e He Hx. destruct (Hfail e He Hx) as [Hrun Hcause].
  split; [| exact Hcause].
  rewrite (loop_aborts sessEv h body da rest s e He). exact Hrun.
Qed.

(** The alert on a dashboard that the dashboard map does not know, on a
    store where every row has a uid. *)
Lemma dashboard_lookup_fatal_witness :
  let body := migrateAlert Sample.dsIDMap Sample.dashIDMap in
  let stray := Sample.alertOn 9 77 3 "stray" in
  let db := Store.with_dashboard [Sample.teamFolder; Sample.rootDash] (Sample.db []) in
  result sessEv storeHandler (forRange [stray; Sample.rootAlert] body) db
  = Fail (MigrationError 9
            (Errorf "dashboard with UID %v under organisation %d not found: %w"
               [AStr ""; AInt 1]))
  /\ trace sessEv storeHandler (forRange [stray; Sample.rootAlert] body) db
     = [EvGet "org_id=? AND uid=?" [AInt 1; AStr ""] (Ok None)].
Proof.
  intros body stray db.
  destruct (dashboard_lookup_fatal storeHandler Sample.dsIDMap Sample.dashIDMap
              stray [Sample.rootAlert] db Sample.promCond)
    as (_ & _ & Hfail); [vm_compute; reflexivity |].
  destruct (Hfail (MigrationError 9
                     (Errorf "dashboard with UID %v under organisation %d not found: %w"
                        [AStr ""; AInt 1]))) as [Hrun _];
    [vm_compute; reflexivity | left; vm_compute; reflexivity |].
  unfold result, trace. subst body. cbv zeta in Hrun. rewrite Hrun.
  split; vm_compute; reflexivity.
Defined.

(** X5. In every iteration, a call of folder resolution that fails
    ([createFolder], [getACL], [setACL] or [getOrCreateGeneralFolder]) is
    the last call of the iteration: no rule is made or inserted after it.
    The result is a [MigrationError] with the id of the alert whose field
    [Err] wraps the error of the call: that field unwraps to the error,
    while the result itself, a [MigrationError] held by value, does not
    unwrap, so the error of the call is not reached by unwrapping what
    [Exec] returns. *)
Theorem resolution_failure_wrapped {helpers : Helpers} {St : Type}
    (h : forall o : SessOp, St -> sessResp o * St)
    (dsIDMap dashIDMap : gmap (Z * Z) string) (da : dashAlert.t) (s : St)
    (e : SessEvent) (err : error) :
  let t := trace sessEv h (migrateAlert dsIDMap dashIDMap da) s in
  In e t ->
  resolutionFailure e = Some err ->
  last t = Some e
  /\ made t = [] /\ inserts t = [] /\ versionInserts t = []
  /\ exists cause,
       result sessEv h (migrateAlert dsIDMap dashIDMap da) s
         = Fail (MigrationError (dashAlert.Id da) cause)
       /\ Unwrap cause = Some err
       /\ Unwrap (MigrationError (dashAlert.Id da) cause) = None.
Proof.
  intros t. subst t. unfold trace, result. open_body.
  explore h; cbn; intros Hin Hres;
    repeat (destruct Hin as [<- | Hin]; [try discriminate Hres |]);
    try contradiction;
    injection Hres as <-;
    repeat (split; [reflexivity |]); eexists; repeat split; reflexivity.
Qed.

(** The alert on the dashboard with its own ACL, on a store that fails the
    fourth statement of the iteration: the read of the ACL. *)
Lemma resolution_failure_wrapped_witness :
  let db := Store.with_faults [None; None; None; Some (Foreign "deadlock")]
              (Sample.db []) in
  exists cause,
    result sessEv storeHandler
      (migrateAlert Sample.dsIDMap Sample.dashIDMap Sample.aclAlert) db
      = Fail (MigrationError 3 cause)
    /\ Unwrap cause = Some (Foreign "deadlock")
    /\ Unwrap (MigrationError 3 cause) = None.
Proof.
  intros db.
  destruct (resolution_failure_wrapped storeHandler Sample.dsIDMap Sample.dashIDMap
              Sample.aclAlert db (EvGetACL 1 12 (Fail (Foreign "deadlock")))
              (Foreign "deadlock"))
    as (_ & _ & _ & _ & cause & Hres & Hun & Hstop);
    [vm_compute; auto 10 | reflexivity |].
  exists cause. repeat split; assumption.
Defined.

(** On the sample store a row without uid exists: the alert whose dashboard
    the map does not know is looked up under the empty uid, finds that row
    and is migrated as if it were its dashboard. *)
Example stray_alert_adopts_row_without_uid :
  let stray := Sample.alertOn 9 77 3 "stray" in
  result sessEv storeHandler Exec (Sample.db [stray]) = Ok tt
  /\ head (drop 3 (trace sessEv storeHandler Exec (Sample.db [stray])))
     = Some (EvGet "org_id=? AND uid=?" [AInt 1; AStr ""] (Ok (Some Sample.namelessFolder))).
Proof. vm_compute. split; reflexivity. Qed.

(** ** Registration: clearing, logging, leaving *)

(** X6. Whatever the collaborators answer, a call of [AddMigration]
    registers at most one migration, and clears a log entry only to
    register: the forward migration is registered right after the entry
    of the removal is cleared, the removal right after the forward entry is
    cleared.  A failure to clear does not prevent the registration: it is
    logged, once, between the two calls. *)
Theorem AddMigration_clears_then_registers {St}
    (h : forall o, St -> mgResp o * St) (s : St) :
  let t := trace mgEv h AddMigration s in
  (registered t = [] /\ cleared t = [])
  \/ (exists other title m pre,
        ((title, m) = (migTitle, migration) /\ other = rmMigTitle
         \/ (title, m) = (rmMigTitle, rmMigration) /\ other = migTitle)
        /\ registered t = [(title, m)]
        /\ result mgEv h AddMigration s = Returned
        /\ (t = pre ++ [EvClearMigrationEntry other None; EvAddMigration title m]
            /\ logged t = []
            \/ exists e msg,
                 t = pre ++ [EvClearMigrationEntry other (Some e); EvLoggerError msg e;
                             EvAddMigration title m]
                 /\ logged t = [e])
        /\ cleared pre = [] /\ registered pre = []).
Proof.
  unfold trace, result, AddMigration.
  cbn -[migTitle rmMigTitle lookup].
  destruct (h (Getenv "UALERT_MIG") s) as [env s1]. cbn in env.
  destruct (String.eqb env "iDidBackup"); [| left; split; reflexivity].
  cbn -[migTitle rmMigTitle lookup].
  destruct (h GetMigrationLog s1) as [[l | e] s2].
  2: { answer h. left. split; reflexivity. }
  cbn -[migTitle rmMigTitle lookup].
  destruct (h IsNgAlertEnabled s2) as [ng s3]. cbn in ng.
  destruct ng, (bool_decide (is_Some (l !! migTitle)));
    answer h; try (left; split; reflexivity); right.
  - exists rmMigTitle, migTitle, migration. eexists [_; _; _].
    split; [left; split; reflexivity |]. repeat (split; [reflexivity |]).
    split; [right; do 2 eexists; split; reflexivity | split; reflexivity].
  - exists rmMigTitle, migTitle, migration. eexists [_; _; _].
    split; [left; split; reflexivity |]. repeat (split; [reflexivity |]).
    split; [left; split; reflexivity | split; reflexivity].
  - exists migTitle, rmMigTitle, rmMigration. eexists [_; _; _].
    split; [right; split; reflexivity |]. repeat (split; [reflexivity |]).
    split; [right; do 2 eexists; split; reflexivity | split; reflexivity].
  - exists migTitle, rmMigTitle, rmMigration. eexists [_; _; _].
    split; [right; split; reflexivity |]. repeat (split; [reflexivity |]).
    split; [left; split; reflexivity | split; reflexivity].
Qed.

(** X7. With the variable set, a migration log that cannot be read is
    fatal: the error is logged as critical and the process exits with
    status 1; the toggle is not consulted, nothing is cleared and nothing
    is registered. *)
Theorem AddMigration_log_failure_exits {St}
    (h : forall o, St -> mgResp o * St) (s : St) (e : error) :
  let '(env, s1) := h (Getenv "UALERT_MIG") s in
  let '(logs, s2) := h GetMigrationLog s1 in
  env = "iDidBackup" ->
  logs = Fail e ->
  exists s3,
    run mgEv h AddMigration s
    = (Exited 1, s3,
       [EvGetenv "UALERT_MIG" env; EvGetMigrationLog (Fail e);
        EvLoggerCrit "alert migration failure: could not get migration log" e]).
Proof.
  unfold AddMigration. cbn -[migTitle rmMigTitle lookup].
  destruct (h (Getenv "UALERT_MIG") s) as [env s1]. cbn in env.
  destruct (h GetMigrationLog s1) as [logs s2] eqn:Hlogs. cbn in logs.
  intros -> ->. cbn -[migTitle rmMigTitle lookup]. rewrite Hlogs.
  cbn -[migTitle rmMigTitle lookup].
  destruct (h (LoggerCrit _ e) s2) as [[] s3]. exists s3. reflexivity.
Qed.

(** The migrator whose log is out of reach. *)
Lemma AddMigration_log_failure_exits_witness :
  let mg0 :=
    {| Migrator.environ := {[ "UALERT_MIG" := "iDidBackup" ]};
       Migrator.migration_log := ∅;
       Migrator.log_error := Some (Foreign "no such table: migration_log");
       Migrator.ngAlertEnabled := true;
       Migrator.migrations := []; Migrator.logger := [] |} in
  exists mg1,
    run mgEv Migrator.handler AddMigration mg0
    = (Exited 1, mg1,
       [EvGetenv "UALERT_MIG" "iDidBackup";
        EvGetMigrationLog (Fail (Foreign "no such table: migration_log"));
        EvLoggerCrit "alert migration failure: could not get migration log"
          (Foreign "no such table: migration_log")]).
Proof.
  intros mg0.
  pose proof (AddMigration_log_failure_exits Migrator.handler mg0
                (Foreign "no such table: migration_log")) as H.
  cbv beta iota zeta delta [Migrator.handler] in H.
  apply H; vm_compute; reflexivity.
Defined.

(** ** The removal migration: failing statements, composition *)

(** X8. Under any behaviour of the session the removal migration stops at
    the first statement that fails: its error is the result as it is, the
    statements before it all succeeded, and no later statement is sent.
    When the result is no error, the six statements were sent and all
    succeeded. *)
Theorem rmExec_first_failure {St : Type}
    (h : forall o : SessOp, St -> sessResp o * St) (s : St) :
  let t := trace sessEv h rmExec s in
  let sent := fun stmts => List.map (fun '(sql, args) => EvExec sql args None) stmts in
  (forall e, result sessEv h rmExec s = Fail e ->
     exists n sql args,
       rmStatements !! n = Some (sql, args)
       /\ t = sent (take n rmStatements) ++ [EvExec sql args (Some e)])
  /\ (result sessEv h rmExec s = Ok tt -> t = sent rmStatements).
Proof.
  unfold trace, result, rmExec, execOrReturn, sess, call.
  repeat (cbn [run bind];
          lazymatch goal with
          | |- context [h ?o ?s0] =>
              let x := fresh "x" in
              let s' := fresh "s" in
              destruct (h o s0) as [[x |] s']
          end);
    cbn [run bind fst snd sessEv];
    (split; [intros e [= <-] | intros [=]]);
    try reflexivity;
    solve [ (exists 0%nat + exists 1%nat + exists 2%nat + exists 3%nat
             + exists 4%nat + exists 5%nat);
            do 2 eexists; split; reflexivity ].
Qed.

(** The store whose third statement fails. *)
Lemma rmExec_first_failure_witness :
  let db := Store.with_faults [None; None; Some (Foreign "locked")] (Sample.db []) in
  exists n sql args,
    rmStatements !! n = Some (sql, args)
    /\ trace sessEv storeHandler rmExec db
       = [EvExec "delete from alert_rule" [] None;
          EvExec "delete from alert_rule_version" [] None]
         ++ [EvExec sql args (Some (Foreign "locked"))].
Proof.
  intros db.
  destruct (rmExec_first_failure storeHandler db) as [Hfail _].
  destruct (Hfail (Foreign "locked")) as (n & sql & args & Hn & Ht);
    [vm_compute; reflexivity |].
  exists n, sql, args. split; [exact Hn |].
  destruct n as [| [| [| [| [| [| n]]]]]]; cbn in Hn; simplify_eq;
    first [ exact Ht | vm_compute in Ht; discriminate Ht ].
Defined.

Lemma keep_all {A} (deleted : A -> bool) (rows : list A) :
  (forall r, In r rows -> deleted r = false) -> Store.keep deleted rows = rows.
Proof.
  unfold Store.keep. induction rows as [| r rows IH]; intros Hall; [reflexivity |].
  cbn. rewrite (Hall r (or_introl eq_refl)). cbn. f_equal.
  apply IH. intros r' Hin. apply Hall. right. exact Hin.
Qed.

Lemma aclOfCreatedBy_after_keep (marker : Z) (dashboards : list dashboard.t)
    (a : dashboardACL.t) :
  Store.aclOfCreatedBy marker (Store.keep (Store.createdBy marker) dashboards) a = false.
Proof.
  unfold Store.aclOfCreatedBy. apply not_true_is_false. intros Hex.
  apply existsb_exists in Hex. destruct Hex as (d & Hin & Hd).
  apply In_keep in Hin. destruct Hin as [_ Hc].
  rewrite Hc in Hd. discriminate.
Qed.

(** The run of the removal migration on a store that fails nothing. *)
Lemma rmExec_store_no_faults (db : Store.DB) :
  Store.faults db = [] ->
  run sessEv storeHandler rmExec db
  = (Ok tt, applyStatements rmStatements db,
     List.map (fun '(sql, args) => EvExec sql args None) rmStatements).
Proof.
  destruct db as [al ds dash acl rules versions conf inst nid fl].
  cbn [Store.faults]. intros ->.
  unfold rmExec, execOrReturn, applyStatements, rmStatements.
  cbn -[storeHandler FOLDER_CREATED_BY Store.exec].
  repeat (progress store_exec). reflexivity.
Qed.

(** X9. On the in-memory store the removal migration is the composition of
    its statements up to the first one the store fails: with [k] statements
    let through and the next one failed, the store is the one the first
    [k] statements leave, the later tables are untouched, and the result is
    the error.  Nothing undoes the statements already applied. *)
Theorem rmExec_applies_up_to_failure (db : Store.DB) (k : nat) (e : error)
    (rest : list (option error)) :
  (k < 6)%nat ->
  Store.faults db = replicate k None ++ Some e :: rest ->
  result sessEv storeHandler rmExec db = Fail e
  /\ final sessEv storeHandler rmExec db
     = applyStatements (take k rmStatements) (Store.with_faults rest db)
  /\ statements (trace sessEv storeHandler rmExec db) = take (S k) rmStatements.
Proof.
  intros Hk Hf. unfold result, final, trace.
  destruct db as [al ds dash acl rules versions conf inst nid fl].
  cbn [Store.faults] in Hf. subst fl.
  unfold rmExec, execOrReturn, applyStatements, rmStatements.
  destruct k as [| [| [| [| [| [| k]]]]]]; [.. | lia];
    cbn -[storeHandler FOLDER_CREATED_BY Store.exec];
    repeat (progress store_exec); repeat split; reflexivity.
Qed.

(** The store that fails the delete of the synthesized folders: rules,
    versions and the grants of those folders are gone, the folders and the
    two last tables are as before. *)
Lemma rmExec_applies_up_to_failure_witness :
  let before := final sessEv storeHandler Exec (Sample.db [Sample.aclAlert]) in
  let db := Store.with_faults [None; None; None; Some (Foreign "locked")] before in
  let after := final sessEv storeHandler rmExec db in
  result sessEv storeHandler rmExec db = Fail (Foreign "locked")
  /\ Store.alert_rule after = [] /\ Store.alert_rule_version after = []
  /\ List.map dashboardACL.DashboardId (Store.dashboard_acl after) = [12; 5]
  /\ Store.dashboard after = Store.dashboard before
  /\ Store.alert_configuration after = [1] /\ Store.alert_instance after = [1; 2].
Proof.
  intros before db after.
  destruct (rmExec_applies_up_to_failure db 3 (Foreign "locked") [])
    as (Hres & Hfinal & _); [lia | reflexivity |].
  split; [exact Hres |]. subst after. rewrite Hfinal.
  vm_compute. repeat split.
Defined.

(** X10. On a store that fails nothing, running the removal migration a
    second time changes nothing; and on a store whose alerting tables are
    empty and that holds no dashboard created by the marker, the first run
    already changes nothing. *)
Theorem rmExec_idempotent (db : Store.DB) :
  Store.faults db = [] ->
  final sessEv storeHandler rmExec (final sessEv storeHandler rmExec db)
    = final sessEv storeHandler rmExec db
  /\ (Store.alert_rule db = [] -> Store.alert_rule_version db = [] ->
      Store.alert_configuration db = [] -> Store.alert_instance db = [] ->
      (forall d, In d (Store.dashboard db) -> dashboard.CreatedBy d <> FOLDER_CREATED_BY) ->
      final sessEv storeHandler rmExec db = db).
Proof.
  intros Hf.
  assert (Hfinal : forall db0, Store.faults db0 = [] ->
            final sessEv storeHandler rmExec db0 = applyStatements rmStatements db0).
  { intros db0 H0. unfold final. rewrite (rmExec_store_no_faults db0 H0). reflexivity. }
  assert (Hstill : Store.faults (applyStatements rmStatements db) = []).
  { destruct db as [al ds dash acl rules versions conf inst nid fl].
    cbn [Store.faults] in Hf. subst fl.
    unfold applyStatements, rmStatements. cbn -[FOLDER_CREATED_BY Store.exec].
    repeat (progress store_exec). reflexivity. }
  rewrite (Hfinal db Hf), (Hfinal _ Hstill).
  destruct db as [al ds dash acl rules versions conf inst nid fl].
  cbn [Store.faults] in Hf. subst fl.
  unfold applyStatements, rmStatements. cbn -[FOLDER_CREATED_BY Store.exec].
  repeat (progress store_exec).
  cbv beta iota delta
    [Store.with_dashboard Store.with_dashboard_acl Store.with_alert_rule
     Store.with_alert_rule_version Store.with_alert_configuration
     Store.with_alert_instance Store.alert Store.data_source Store.dashboard
     Store.dashboard_acl Store.alert_rule Store.alert_rule_version
     Store.alert_configuration Store.alert_instance Store.next_id Store.faults].
  split.
  - f_equal.
    + apply keep_keep.
    + rewrite (keep_all (Store.aclOfCreatedBy FOLDER_CREATED_BY
                           (Store.keep (Store.createdBy FOLDER_CREATED_BY) dash)));
        [reflexivity |].
      intros a _. apply aclOfCreatedBy_after_keep.
  - intros -> -> -> -> Hnone.
    assert (Hd : Store.keep (Store.createdBy FOLDER_CREATED_BY) dash = dash).
    { apply keep_all. intros d Hin. unfold Store.createdBy. apply Z.eqb_neq.
      apply Hnone, Hin. }
    rewrite Hd. f_equal.
    apply keep_all. intros a _. apply aclOfCreatedBy_false.
    intros d Hin _. apply Hnone, Hin.
Qed.

(** The sample store has alert configurations and instances: the first
    run empties them, the second finds nothing to do. *)
Lemma rmExec_idempotent_witness :
  final sessEv storeHandler rmExec (final sessEv storeHandler rmExec (Sample.db []))
  = final sessEv storeHandler rmExec (Sample.db [])
  /\ final sessEv storeHandler rmExec (Sample.db []) <> Sample.db [].
Proof.
  split.
  - apply (rmExec_idempotent (Sample.db [])). reflexivity.
  - vm_compute. discriminate.
Defined.

(** ** Whole runs of the forward migration *)






(** X12. [Exec] visits the alerts in the order they were read and stops at
    the first iteration that fails: its error is the result of the run, the
    trace is the reads, the iterations before it and the failed iteration,
    and the state is the one that iteration left.  The alerts after it are
    not visited, and nothing of what the earlier iterations did is
    undone by [Exec]. *)
Theorem Exec_stops_at_first_failure {helpers : Helpers} {St : Type}
    (h : forall o : SessOp, St -> sessResp o * St) (s s1 s2 s3 sb sf : St)
    (before after : list dashAlert.t) (da : dashAlert.t)
    (ds dm : gmap (Z * Z) string) (tb tf : list SessEvent) (e : error) :
  h slurpDashAlerts s = (Ok (before ++ da :: after), s1) ->
  h slurpDSIDs s1 = (Ok ds, s2) ->
  h slurpDashUIDs s2 = (Ok dm, s3) ->
  run sessEv h (forRange before (migrateAlert ds dm)) s3 = (Ok tt, sb, tb) ->
  run sessEv h (migrateAlert ds dm da) sb = (Fail e, sf, tf) ->
  run sessEv h Exec s
  = (Fail e, sf,
     [EvSlurpDashAlerts (Ok (before ++ da :: after)); EvSlurpDSIDs (Ok ds);
      EvSlurpDashUIDs (Ok dm)] ++ tb ++ tf).
Proof.
  intros H1 H2 H3 Hbefore Hda.
  rewrite (Exec_loop h s s1 s2 s3 _ ds dm H1 H2 H3).
  rewrite forRange_app, Hbefore.
  rewrite (forRange_fails sessEv h _ da after sb sf e tf Hda). reflexivity.
Qed.

(** Three alerts, the second of which refers to a datasource without uid:
    the run fails on it, the third alert is never looked up, and the rule
    and version of the first are in the store the run leaves. *)
Lemma Exec_stops_at_first_failure_witness :
  let db := Sample.db [Sample.rootAlert; Sample.lostAlert; Sample.teamAlert] in
  result sessEv storeHandler Exec db = Fail (Store.UnresolvedDatasourceError 7)
  /\ List.map alertRule.Title (Store.alert_rule (final sessEv storeHandler Exec db))
     = ["cpu"]
  /\ length (trace sessEv storeHandler Exec db) = 8%nat.
Proof.
  intros db.
  pose proof (Exec_stops_at_first_failure storeHandler db db db db
                (final sessEv storeHandler
                   (migrateAlert Sample.dsIDMap Sample.dashIDMap Sample.rootAlert) db)
                (final sessEv storeHandler
                   (migrateAlert Sample.dsIDMap Sample.dashIDMap Sample.rootAlert) db)
                [Sample.rootAlert] [Sample.teamAlert] Sample.lostAlert
                Sample.dsIDMap Sample.dashIDMap
                (trace sessEv storeHandler
                   (migrateAlert Sample.dsIDMap Sample.dashIDMap Sample.rootAlert) db)
                [] (Store.UnresolvedDatasourceError 7)) as Hrun.
  unfold result, final, trace in *. rewrite Hrun; try (vm_compute; reflexivity).
  vm_compute. repeat split.
Defined.

(** ** The retry *)

Lemma append_not_self (s t : string) : t <> "" -> s +:+ t <> s.
Proof.
  intros Ht. induction s as [| c s IH]; [exact Ht |]. intros H.
  change (String c (s +:+ t) = String c s) in H. injection H. exact IH.
Qed.

(** X13. In every iteration, the second insert of a rule differs from the
    first in title and in rule group, and carries the same uid, the same
    organisation and the same folder: the retry never sends the same row
    again, and it never changes the uid. *)
Theorem retry_changes_title_not_uid {helpers : Helpers} {St : Type}
    (h : forall o : SessOp, St -> sessResp o * St)
    (dsIDMap dashIDMap : gmap (Z * Z) string) (da : dashAlert.t) (s : St)
    (r1 r2 : alertRule.t) (e1 e2 : option error) :
  inserts (trace sessEv h (migrateAlert dsIDMap dashIDMap da) s) = [(r1, e1); (r2, e2)] ->
  alertRule.Title r2 <> alertRule.Title r1
  /\ alertRule.RuleGroup r2 <> alertRule.RuleGroup r1
  /\ r2 <> r1
  /\ alertRule.Uid r2 = alertRule.Uid r1
  /\ alertRule.OrgId r2 = alertRule.OrgId r1
  /\ alertRule.NamespaceUID r2 = alertRule.NamespaceUID r1.
Proof.
  assert (Hsuf : forall r,
            alertRule.Title (alertRule.suffixed r) <> alertRule.Title r
            /\ alertRule.RuleGroup (alertRule.suffixed r) <> alertRule.RuleGroup r).
  { intros r. cbn. split; apply append_not_self; discriminate. }
  unfold trace. open_body.
  explore h; cbn; intros [=]; subst;
    destruct (Hsuf r1) as [Ht Hg];
    repeat split; try assumption; try reflexivity;
    intros Heq; apply Ht; rewrite Heq; reflexivity.
Qed.

(** The second alert named "cpu" on the sample store. *)
Lemma retry_changes_title_not_uid_witness :
  let body := migrateAlert Sample.dsIDMap Sample.dashIDMap in
  let s := final sessEv storeHandler (body Sample.rootAlert) (Sample.db []) in
  alertRule.Title (alertRule.suffixed Sample.cpuRule) <> alertRule.Title Sample.cpuRule
  /\ alertRule.Uid (alertRule.suffixed Sample.cpuRule) = alertRule.Uid Sample.cpuRule.
Proof.
  intros body s.
  destruct (retry_changes_title_not_uid storeHandler Sample.dsIDMap Sample.dashIDMap
              Sample.rootAlert' s Sample.cpuRule (alertRule.suffixed Sample.cpuRule)
              (Some Store.UniqueConstraintError) None)
    as (Ht & _ & _ & Hu & _); [vm_compute; reflexivity |].
  split; assumption.
Defined.

(** ** Error messages *)

Example sprintf_examples :
  sprintf "Migrated %s" [AStr "d12/2/3"] None = DASHBOARD_FOLDER "d12/2/3"
  /\ sprintf " %v" [AStr "rule-102"] None = " rule-102"
  /\ sprintf "id %v is a dashboard not a folder" [AInt 10] None
     = "id 10 is a dashboard not a folder"
  /\ sprintf "%d%%" [AStr "x"; AInt (-3)] None = "%!d(string=x)%%!(EXTRA int64=-3)"
  /\ sprintf "%s and %d" [AStr "a"] None = "a and %!d(MISSING)".
Proof. vm_compute. repeat split. Qed.

Lemma append_empty_r (s : string) : s +:+ "" = s.
Proof.
  induction s as [| c s IH]; [reflexivity |].
  change (String c (s +:+ "") = String c s). congruence.
Qed.

Lemma append_assoc (a b c : string) : (a +:+ b) +:+ c = a +:+ (b +:+ c).
Proof.
  induction a as [| x a IH]; [reflexivity |].
  change (String x ((a +:+ b) +:+ c) = String x (a +:+ (b +:+ c))). congruence.
Qed.

Lemma append_inj_l (s x y : string) : s +:+ x = s +:+ y -> x = y.
Proof.
  induction s as [| c s IH]; [auto |]. intros H.
  change (String c (s +:+ x) = String c (s +:+ y)) in H. injection H. exact IH.
Qed.

Lemma Error_MigrationError (alertId : Z) (cause : error) :
  Error (MigrationError alertId cause)
  = "failed to migrate alert " +:+ pretty alertId +:+ ": " +:+ Error cause.
Proof.
  cbn -[pretty String.append]. rewrite append_empty_r. reflexivity.
Qed.

(** X14. When the lookup of the dashboard finds no row, the message of the
    error the iteration returns ends with [%!w(<nil>)]: the format of that
    error has a [%w] verb whose operand is the nil error of the lookup. *)
Theorem not_found_message {helpers : Helpers} {St : Type}
    (h : forall o : SessOp, St -> sessResp o * St)
    (dsIDMap dashIDMap : gmap (Z * Z) string) (da : dashAlert.t) (s : St)
    (args : list arg) (t' : list SessEvent) :
  let uid := default "" (dashIDMap !! (dashAlert.OrgId da, dashAlert.DashboardId da)) in
  trace sessEv h (migrateAlert dsIDMap dashIDMap da) s
    = EvGet "org_id=? AND uid=?" args (Ok None) :: t' ->
  exists e,
    result sessEv h (migrateAlert dsIDMap dashIDMap da) s = Fail e
    /\ Error e
       = "failed to migrate alert " +:+ pretty (dashAlert.Id da)
         +:+ ": dashboard with UID " +:+ uid +:+ " under organisation "
         +:+ pretty (dashAlert.OrgId da) +:+ " not found: %!w(<nil>)".
Proof.
  intros uid. subst uid. unfold trace, result. open_body.
  explore h; cbn [fst snd]; intros Ht; simplify_eq.
  unfold id.
  cbn [dashAlert.Id dashAlert.OrgId dashAlert.DashboardUID dashAlert.setDashboardUID].
  eexists. split; [reflexivity |].
  rewrite Error_MigrationError. reflexivity.
Qed.

(** The alert on a dashboard that the dashboard map does not know, on a
    store where every row has a uid. *)
Lemma not_found_message_witness :
  let db := Store.with_dashboard [Sample.teamFolder; Sample.rootDash] (Sample.db []) in
  exists e,
    result sessEv storeHandler
      (migrateAlert Sample.dsIDMap Sample.dashIDMap (Sample.alertOn 9 77 3 "stray")) db
    = Fail e
    /\ Error e
       = "failed to migrate alert 9: dashboard with UID  under organisation 1 not found: %!w(<nil>)".
Proof.
  intros db.
  destruct (not_found_message storeHandler Sample.dsIDMap Sample.dashIDMap
              (Sample.alertOn 9 77 3 "stray") db [AInt 1; AStr ""] [])
    as (e & Hres & Hmsg); [vm_compute; reflexivity |].
  exists e. split; [exact Hres |]. rewrite Hmsg. vm_compute. reflexivity.
Defined.

Lemma numeric_pretty_N_char (x : N) : isNumChar (pretty_N_char x) = true.
Proof. unfold pretty_N_char. repeat case_match; reflexivity. Qed.

Lemma numeric_pretty_N_go (x : N) (s : string) :
  numeric s = true -> numeric (pretty_N_go x s) = true.
Proof.
  revert s. induction (N.lt_wf_0 x) as [x _ IH]. intros s Hs.
  destruct (decide (0 < x)%N) as [Hpos | Hzero].
  - rewrite pretty_N_go_step by exact Hpos.
    apply IH; [apply N.div_lt; [exact Hpos | reflexivity] |].
    cbn [numeric]. rewrite numeric_pretty_N_char, Hs. reflexivity.
  - assert (x = 0%N) as -> by lia. rewrite pretty_N_go_0. exact Hs.
Qed.

Lemma numeric_pretty_Z (z : Z) : numeric (pretty z) = true.
Proof.
  assert (HN : forall n : N, numeric (pretty n) = true).
  { intros n. unfold pretty, pretty_N. case_decide; [reflexivity |].
    apply numeric_pretty_N_go. reflexivity. }
  destruct z as [| p | p]; [reflexivity | apply (HN (Npos p)) |].
  change (pretty (Zneg p)) with (String "-" (pretty (Npos p))).
  cbn [numeric]. apply andb_true_iff. split; [reflexivity | apply (HN (Npos p))].
Qed.

(** Two decimal numbers followed by a colon: the numbers are the same. *)
Lemma numeric_colon_inj (x y m m' : string) :
  numeric x = true -> numeric y = true ->
  x +:+ String ":" m = y +:+ String ":" m' -> x = y.
Proof.
  revert y. induction x as [| c x IH]; intros [| d y] Hx Hy; cbn; intros Heq.
  - reflexivity.
  - injection Heq as <- _. cbn in Hy. discriminate.
  - injection Heq as -> _. cbn in Hx. discriminate.
  - injection Heq as -> Heq. f_equal.
    cbn in Hx, Hy. apply andb_true_iff in Hx, Hy.
    apply (IH y); tauto.
Qed.

(** X15. The message of a [MigrationError] names its alert: two such errors
    with the same message carry the same alert id, whatever their
    causes. *)
Theorem Error_names_the_alert (a b : Z) (cause cause' : error) :
  Error (MigrationError a cause) = Error (MigrationError b cause') -> a = b.
Proof.
  rewrite !Error_MigrationError. intros Heq.
  apply append_inj_l in Heq.
  apply (inj pretty). cbn [String.append] in Heq.
  exact (numeric_colon_inj _ _ _ _ (numeric_pretty_Z a) (numeric_pretty_Z b) Heq).
Qed.

Lemma Error_names_the_alert_witness :
  Error (MigrationError 4 (Errorf "folder with id %v not found" [AInt 99]))
  = "failed to migrate alert 4: folder with id 99 not found"
  /\ (forall b cause',
        Error (MigrationError b cause')
        = "failed to migrate alert 4: folder with id 99 not found" -> b = 4).
Proof.
  split; [vm_compute; reflexivity |].
  intros b cause' Hmsg. symmetry.
  apply (Error_names_the_alert 4 b
           (Errorf "folder with id %v not found" [AInt 99]) cause').
  rewrite Hmsg. vm_compute. reflexivity.
Defined.

Lemma ends_String (c : Ascii.ascii) (s E : string) :
  (exists p, s = p +:+ E) -> exists p, String c s = p +:+ E.
Proof. intros [p ->]. exists (String c p). reflexivity. Qed.

Lemma ends_append (x s E : string) :
  (exists p, s = p +:+ E) -> exists p, x +:+ s = p +:+ E.
Proof. intros [p ->]. exists (x +:+ p). rewrite append_assoc. reflexivity. Qed.

Lemma ends_here (E : string) : exists p, E +:+ "" = p +:+ E.
Proof. exists "". apply append_empty_r. Qed.

(** X16. When a row lookup or a call of folder resolution fails in an
    iteration, the message of the error the iteration returns starts with
    the id of the alert and ends with the message of the error of that
    call: the wrapping loses neither. *)
Theorem failure_message_keeps_cause {helpers : Helpers} {St : Type}
    (h : forall o : SessOp, St -> sessResp o * St)
    (dsIDMap dashIDMap : gmap (Z * Z) string) (da : dashAlert.t) (s : St)
    (ev : SessEvent) (err : error) :
  let t := trace sessEv h (migrateAlert dsIDMap dashIDMap da) s in
  In ev t ->
  wrappedFailure ev = Some err ->
  exists e p,
    result sessEv h (migrateAlert dsIDMap dashIDMap da) s = Fail e
    /\ Error e
       = "failed to migrate alert " +:+ pretty (dashAlert.Id da) +:+ ": "
         +:+ p +:+ Error err.
Proof.
  intros t.
  assert (Hcause : In ev t -> wrappedFailure ev = Some err ->
            exists cause,
              result sessEv h (migrateAlert dsIDMap dashIDMap da) s
                = Fail (MigrationError (dashAlert.Id da) cause)
              /\ exists p, Error cause = p +:+ Error err).
  { subst t. unfold trace, result. open_body.
    explore h; cbn [fst snd In]; intros Hin Hres;
      repeat (destruct Hin as [<- | Hin]; [try discriminate Hres |]);
      try contradiction;
      injection Hres as <-;
      (eexists; split; [reflexivity |]);
      cbn -[pretty String.append];
      repeat first [ exact (ends_here _) | simple apply ends_String
                   | simple apply ends_append ]. }
  intros Hin Hres. destruct (Hcause Hin Hres) as (cause & Hr & p & Hp).
  exists (MigrationError (dashAlert.Id da) cause), p.
  split; [exact Hr |]. rewrite Error_MigrationError, Hp. reflexivity.
Qed.

(** The alert on the dashboard with its own ACL, on a store that fails the
    read of the ACL. *)
Lemma failure_message_keeps_cause_witness :
  let db := Store.with_faults [None; None; None; Some (Foreign "deadlock")]
              (Sample.db []) in
  exists e,
    result sessEv storeHandler
      (migrateAlert Sample.dsIDMap Sample.dashIDMap Sample.aclAlert) db = Fail e
    /\ Error e
       = "failed to migrate alert 3: failed to get dashboard 12 under organisation 1 permissions: deadlock".
Proof.
  intros db.
  destruct (failure_message_keeps_cause storeHandler Sample.dsIDMap Sample.dashIDMap
              Sample.aclAlert db (EvGetACL 1 12 (Fail (Foreign "deadlock")))
              (Foreign "deadlock"))
    as (e & p & Hres & _); [vm_compute; auto 10 | reflexivity |].
  exists e. split; [exact Hres |].
  vm_compute in Hres. injection Hres as <-. vm_compute. reflexivity.
Defined.

(** ** The shape of an iteration *)

(** X17. Under any behaviour of the session, the calls of an iteration come
    in stages that never interleave: the row lookups, then the calls of
    folder resolution, then [makeAlertRule], then the rule inserts, then
    the version insert; no bulk read and no [sess.Exec] statement occurs.
    In particular nothing is inserted before the folder is settled. *)
Theorem iteration_stages {helpers : Helpers} {St : Type}
    (h : forall o : SessOp, St -> sessResp o * St)
    (dsIDMap dashIDMap : gmap (Z * Z) string) (da : dashAlert.t) (s : St) :
  let stages := List.map phase (trace sessEv h (migrateAlert dsIDMap dashIDMap da) s) in
  ascending stages = true /\ Forall (fun p => (p <= 4)%nat) stages.
Proof.
  cbv zeta. unfold trace. open_body.
  explore h; (split; [reflexivity |]);
    cbn; repeat (constructor; [lia |]); constructor.
Qed.

Lemma iteration_length {helpers : Helpers} {St : Type}
    (h : forall o : SessOp, St -> sessResp o * St)
    (dsIDMap dashIDMap : gmap (Z * Z) string) (da : dashAlert.t) (s : St) :
  (length (trace sessEv h (migrateAlert dsIDMap dashIDMap da) s) <= 9)%nat.
Proof.
  unfold trace. open_body. explore h; cbn; lia.
Qed.

Lemma loop_length {helpers : Helpers} {St : Type}
    (h : forall o : SessOp, St -> sessResp o * St)
    (dsIDMap dashIDMap : gmap (Z * Z) string) (alerts : list dashAlert.t) (s : St) :
  (length (trace sessEv h (forRange alerts (migrateAlert dsIDMap dashIDMap)) s)
   <= 9 * length alerts)%nat.
Proof.
  revert s. induction alerts as [| da alerts IH]; intros s; [cbn; lia |].
  unfold trace.
  pose proof (iteration_length h dsIDMap dashIDMap da s) as Hda. unfold trace in Hda.
  destruct (run sessEv h (migrateAlert dsIDMap dashIDMap da) s)
    as [[[u | e] s1] t1] eqn:Hrun.
  - rewrite (forRange_continues sessEv h _ da alerts s s1 u t1 Hrun).
    specialize (IH s1). unfold trace in IH.
    destruct (run sessEv h (forRange alerts (migrateAlert dsIDMap dashIDMap)) s1)
      as [[r s2] t2].
    cbn [snd length] in *. rewrite length_app. lia.
  - rewrite (forRange_fails sessEv h _ da alerts s s1 e t1 Hrun).
    cbn [snd length] in *. lia.
Qed.

(** X18. A run of [Exec] makes at most three calls plus nine per alert
    read, under any behaviour of the session: the datasources and the
    dashboard uids are read once for the run, whatever the number of
    alerts.  An iteration makes at most nine calls; its longest path is
    the one of a dashboard with its own ACL whose first rule insert
    fails. *)
Theorem Exec_call_budget {helpers : Helpers} {St : Type}
    (h : forall o : SessOp, St -> sessResp o * St) (s : St) :
  let alerts := match (h slurpDashAlerts s).1 with
                | Ok alerts => alerts
                | Fail _ => []
                end in
  (length (trace sessEv h Exec s) <= 3 + 9 * length alerts)%nat
  /\ (forall ds dm da s0,
        (length (trace sessEv h (migrateAlert ds dm da) s0) <= 9)%nat).
Proof.
  split; [| intros; apply iteration_length].
  unfold trace, Exec, try, sess, call. cbn [run bind].
  destruct (h slurpDashAlerts s) as [[alerts | e1] s1]; cbn [run bind fst];
    [| cbn; lia].
  destruct (h slurpDSIDs s1) as [[ds | e2] s2]; cbn [run bind]; [| cbn; lia].
  destruct (h slurpDashUIDs s2) as [[dm | e3] s3]; cbn [run bind]; [| cbn; lia].
  pose proof (loop_length h ds dm alerts s3) as Hloop. unfold trace in Hloop.
  destruct (run sessEv h (forRange alerts (migrateAlert ds dm)) s3) as [[r s4] t].
  cbn [snd length] in *. lia.
Qed.

(** The bound of nine is met: the alert on the dashboard with its own ACL,
    on a store that fails the first insert of the rule. *)
Example iteration_of_nine_calls :
  length (trace sessEv storeHandler
            (migrateAlert Sample.dsIDMap Sample.dashIDMap Sample.aclAlert)
            (Store.with_faults
               [None; None; None; None; None; None; Some (Foreign "busy")]
               (Sample.db []))) = 9%nat.
Proof. vm_compute. reflexivity. Qed.
